(** * Command gateway: rule matching, credit ledger and approval workflow

    A shallow embedding of the Express/Prisma handlers of the command
    gateway backend ([api/commands.ts], [api/regex-rules.ts],
    [api/approval-requests.ts]) together with the properties of the
    gateway that are checked against them.

    Layout:
    - [JsRegExp]: the fragment of ECMAScript regular expressions the
      handlers rely on ([new RegExp(p)] and [RegExp.prototype.test]);
    - the database tables and the Prisma calls the handlers issue;
    - the handlers themselves;
    - the theorems. *)

From Stdlib Require Import ZArith String Ascii List Bool Lia.
From stdpp Require Import base option list gmap strings sorting pretty.

Set Default Proof Using "Type".

(** ** ECMAScript regular expressions (the fragment in use) *)

Module JsRegExp.

(** JavaScript strings are sequences of code units; a code unit is an
    [ascii] here.  All pattern syntax characters are ASCII. *)

Definition backslash : ascii := "092"%char.

Inductive char_class := Digit | Space | Word.

Inductive token :=
| TLit (c : ascii)
| TDot
| TCls (neg : bool) (k : char_class)
| TBol
| TEol
| TStar
| TPlus
| TQuest
| TBar
| TOpen
| TClose.

Inductive regex :=
| Empty
| Chr (c : ascii)
| Any
| Cls (neg : bool) (k : char_class)
| Bol
| Eol
| Seq (r1 r2 : regex)
| Alt (r1 r2 : regex)
| Star (r : regex).

(** SyntaxCharacter of the ECMAScript grammar:
    [^ $ \ . * + ? ( ) [ ] { } |]. *)
Definition syntax_chars : list ascii :=
  ["^"; "$"; backslash; "."; "*"; "+"; "?"; "("; ")"; "["; "]"; "{"; "}"; "|"]%char.

Definition is_syntax_char (c : ascii) : bool :=
  existsb (Ascii.eqb c) syntax_chars.

(** A pattern character outside an escape.  Brackets and braces
    (character classes, counted repetition and their Annex B readings)
    are outside the fragment: no token. *)
Definition plain_token (c : ascii) : option token :=
  if Ascii.eqb c "." then Some TDot
  else if Ascii.eqb c "^" then Some TBol
  else if Ascii.eqb c "$" then Some TEol
  else if Ascii.eqb c "*" then Some TStar
  else if Ascii.eqb c "+" then Some TPlus
  else if Ascii.eqb c "?" then Some TQuest
  else if Ascii.eqb c "|" then Some TBar
  else if Ascii.eqb c "(" then Some TOpen
  else if Ascii.eqb c ")" then Some TClose
  else if existsb (Ascii.eqb c) ["["; "]"; "{"; "}"]%char then None
  else Some (TLit c).

(** The character after a backslash: an identity escape of a syntax
    character (or of [/]), a class escape or a control escape.  Other
    escapes (back references, [\b], [\x..], [\u....], ...) are outside
    the fragment. *)
Definition escape_token (c : ascii) : option token :=
  if is_syntax_char c || Ascii.eqb c "/" then Some (TLit c)
  else if Ascii.eqb c "d" then Some (TCls false Digit)
  else if Ascii.eqb c "D" then Some (TCls true Digit)
  else if Ascii.eqb c "s" then Some (TCls false Space)
  else if Ascii.eqb c "S" then Some (TCls true Space)
  else if Ascii.eqb c "w" then Some (TCls false Word)
  else if Ascii.eqb c "W" then Some (TCls true Word)
  else if Ascii.eqb c "t" then Some (TLit "009")
  else if Ascii.eqb c "n" then Some (TLit "010")
  else if Ascii.eqb c "v" then Some (TLit "011")
  else if Ascii.eqb c "f" then Some (TLit "012")
  else if Ascii.eqb c "r" then Some (TLit "013")
  else None.

Fixpoint tokenize (s : string) : option (list token) :=
  match s with
  | EmptyString => Some []
  | String c rest =>
      if Ascii.eqb c backslash then
        match rest with
        | EmptyString => None
        | String e rest' =>
            match escape_token e, tokenize rest' with
            | Some t, Some ts => Some (t :: ts)
            | _, _ => None
            end
        end
      else
        match plain_token c, tokenize rest with
        | Some t, Some ts => Some (t :: ts)
        | _, _ => None
        end
  end.

(** A quantifier after an atom, with its optional lazy mark.  Only
    the existence of a match is observed by [test], so greedy and lazy
    repetition get the same tree. *)
Definition parse_quant (r : regex) (ts : list token) : regex * list token :=
  let lazy_mark ts := match ts with TQuest :: ts' => ts' | _ => ts end in
  match ts with
  | TStar :: ts' => (Star r, lazy_mark ts')
  | TPlus :: ts' => (Seq r (Star r), lazy_mark ts')
  | TQuest :: ts' => (Alt r Empty, lazy_mark ts')
  | _ => (r, ts)
  end.

(** Disjunction ::= Alternative (| Alternative)*,
    Alternative ::= Term*,
    Term ::= ^ | $ | Atom Quantifier?.  The fuel bounds the depth. *)
Fixpoint parse_disj (n : nat) (ts : list token) {struct n}
  : option (regex * list token) :=
  match n with
  | O => None
  | S n' =>
      match parse_alt n' ts with
      | Some (r1, TBar :: ts') =>
          match parse_disj n' ts' with
          | Some (r2, ts'') => Some (Alt r1 r2, ts'')
          | None => None
          end
      | other => other
      end
  end
with parse_alt (n : nat) (ts : list token) {struct n}
  : option (regex * list token) :=
  match n with
  | O => None
  | S n' =>
      match ts with
      | [] | TBar :: _ | TClose :: _ => Some (Empty, ts)
      | _ =>
          match parse_term n' ts with
          | Some (r1, ts') =>
              match parse_alt n' ts' with
              | Some (r2, ts'') => Some (Seq r1 r2, ts'')
              | None => None
              end
          | None => None
          end
      end
  end
with parse_term (n : nat) (ts : list token) {struct n}
  : option (regex * list token) :=
  match n with
  | O => None
  | S n' =>
      match ts with
      | TLit c :: ts' => Some (parse_quant (Chr c) ts')
      | TDot :: ts' => Some (parse_quant Any ts')
      | TCls neg k :: ts' => Some (parse_quant (Cls neg k) ts')
      | TBol :: ts' => Some (Bol, ts')
      | TEol :: ts' => Some (Eol, ts')
      | TOpen :: TQuest :: TLit ":" :: ts' =>
          match parse_disj n' ts' with
          | Some (r, TClose :: ts'') => Some (parse_quant r ts'')
          | _ => None
          end
      | TOpen :: TQuest :: _ => None
      | TOpen :: ts' =>
          match parse_disj n' ts' with
          | Some (r, TClose :: ts'') => Some (parse_quant r ts'')
          | _ => None
          end
      | _ => None
      end
  end.

Definition parse_fuel (ts : list token) : nat := 3 * length ts + 3.

(** [new RegExp(pattern)] on the fragment: [None] stands for the
    thrown SyntaxError.  A pattern outside the fragment (brackets,
    braces, look-around, back references, other escapes) also gets
    [None], which says nothing of what JavaScript does with it: the
    statements made for this engine are about patterns of the fragment,
    and the handlers are verified for any engine. *)
Definition compile (pattern : string) : option regex :=
  match tokenize pattern with
  | Some ts =>
      match parse_disj (parse_fuel ts) ts with
      | Some (r, []) => Some r
      | _ => None
      end
  | None => None
  end.

Definition in_range (lo hi c : ascii) : bool :=
  (nat_of_ascii lo <=? nat_of_ascii c)%nat && (nat_of_ascii c <=? nat_of_ascii hi)%nat.

Definition in_class (k : char_class) (c : ascii) : bool :=
  match k with
  | Digit => in_range "0" "9" c
  | Word => in_range "a" "z" c || in_range "A" "Z" c || in_range "0" "9" c
            || Ascii.eqb c "_"
  | Space => existsb (Ascii.eqb c) ["009"; "010"; "011"; "012"; "013"; " "; "160"]%char
  end.

Definition is_line_terminator (c : ascii) : bool :=
  Ascii.eqb c "010" || Ascii.eqb c "013".

(** Backtracking matcher in continuation-passing style.  [i] is the
    index of the current position in the input and [s] the rest of the
    input from there; without the [m] flag [^] holds at index 0 only
    and [$] at the end of input only.  An iteration of [*] that
    consumes nothing is cut, as RepeatMatcher does. *)
Fixpoint rmatch (r : regex) (i : nat) (s : list ascii)
         (k : nat -> list ascii -> bool) {struct r} : bool :=
  match r with
  | Empty => k i s
  | Chr c =>
      match s with
      | x :: s' => if Ascii.eqb x c then k (S i) s' else false
      | [] => false
      end
  | Any =>
      match s with
      | x :: s' => if is_line_terminator x then false else k (S i) s'
      | [] => false
      end
  | Cls neg cl =>
      match s with
      | x :: s' => if xorb neg (in_class cl x) then k (S i) s' else false
      | [] => false
      end
  | Bol => if Nat.eqb i 0 then k i s else false
  | Eol => match s with [] => k i s | _ :: _ => false end
  | Seq r1 r2 => rmatch r1 i s (fun i' s' => rmatch r2 i' s' k)
  | Alt r1 r2 => rmatch r1 i s k || rmatch r2 i s k
  | Star r1 =>
      (fix loop (n : nat) (i : nat) (s : list ascii) {struct n} : bool :=
         k i s ||
         match n with
         | O => false
         | S n' =>
             rmatch r1 i s
               (fun i' s' => (length s' <? length s)%nat && loop n' i' s')
         end) (length s) i s
  end.

(** [regex.test(text)] for a regex without flags: a match may start at
    any index of the input. *)
Definition test (r : regex) (text : string) : bool :=
  let s := list_ascii_of_string text in
  existsb (fun i => rmatch r i (drop i s) (fun _ _ => true))
          (seq 0 (S (length s))).

(** The tree of a run of literal characters followed by [tail]. *)
Definition lit_seq (cs : list ascii) (tail : regex) : regex :=
  foldr (fun c r => Seq (Chr c) r) tail cs.

End JsRegExp.


(** ** The regular-expression engine as the handlers see it

    The handlers only call [new RegExp(pattern)], which returns a regex
    or throws, and [regex.test(text)].  The handlers are written against
    this interface; [js_engine] instantiates it with [JsRegExp]. *)

Class RegExpEngine := {
  RegExp : Type;
  newRegExp : string -> option RegExp;
  regexp_test : RegExp -> string -> bool
}.

#[export] Instance js_engine : RegExpEngine := {|
  RegExp := JsRegExp.regex;
  newRegExp := JsRegExp.compile;
  regexp_test := JsRegExp.test
|}.

(** ** JSON values and HTTP responses *)

Unset Elimination Schemes.
Inductive Json :=
| JNull
| JBool (b : bool)
| JNum (n : Z)
| JStr (s : string)
| JArr (items : list Json)
| JObj (fields : list (string * Json)).
Set Elimination Schemes.

(** JavaScript truthiness of a JSON value ([!x] is its negation). *)
Definition truthy (v : Json) : bool :=
  match v with
  | JNull => false
  | JBool b => b
  | JNum n => negb (n =? 0)%Z
  | JStr s => negb (String.eqb s "")
  | JArr _ | JObj _ => true
  end.

Definition json_opt {A} (f : A -> Json) (o : option A) : Json :=
  match o with Some a => f a | None => JNull end.

(** [res.status(code).json(body)] *)
Record Response := { status_code : nat; body : Json }.

Definition json (code : nat) (fields : list (string * Json)) : Response :=
  {| status_code := code; body := JObj fields |}.

(** [obj.field] of a response body. *)
Definition field (name : string) (v : Json) : option Json :=
  match v with
  | JObj fields => snd <$> List.find (fun kv => String.eqb (fst kv) name) fields
  | _ => None
  end.

(** [String.prototype.includes] *)
Definition includes (s sub : string) : bool :=
  match String.index 0 sub s with Some _ => true | None => false end.

(** ** Tables

    Primary keys are uuid texts in the schema; they are natural numbers
    here, drawn from a counter.  Timestamps are integers (milliseconds).
    Columns no modelled handler reads or writes (password, name, email,
    updatedAt) are left out. *)

Abbreviation Id := nat (only parsing).

Inductive Role := admin | approver | member | lead | junior.

Module User.
Record t := { id : Id; username : string; role : Role; credits : Z }.
End User.

Module ApiKey.
Record t := { id : Id; key : string; userId : Id; lastUsed : option Z }.
End ApiKey.

Inductive RuleAction := AUTO_REJECT | AUTO_ACCEPT.

Module RegexRule.
Record t := {
  id : Id;
  pattern : string;
  action : RuleAction;
  exampleMatch : option string;
  createdAt : Z
}.
End RegexRule.

Inductive ApprovalStatus := pending | approved | rejected.

Module ApprovalRequest.
(** [approvalCount] is the column of the documented schema (default
    0); no handler of [api/approval-requests.ts] reads or writes it. *)
Record t := {
  id : Id;
  userId : Id;
  commandText : string;
  status : ApprovalStatus;
  approvalCount : Z;
  createdAt : Z;
  reviewedAt : option Z;
  reviewedBy : option Id
}.
End ApprovalRequest.

Module AuditTrail.
Record t := {
  id : Id;
  userId : Id;
  commandText : string;
  creditsDeducted : Z;
  creditsBefore : Z;
  creditsAfter : Z;
  createdAt : Z
}.
End AuditTrail.

(** The database.  Users, API keys and approval requests are only ever
    reached through a unique column and are finite maps on it; rules and
    audit entries are scanned in order and are lists of rows. *)
Record DB := {
  users : gmap Id User.t;
  apiKeys : gmap string ApiKey.t;
  regexRules : list RegexRule.t;
  approvalRequests : gmap Id ApprovalRequest.t;
  auditTrail : list AuditTrail.t;
  next_id : Id
}.

#[export] Instance Role_eq_dec : EqDecision Role.
Proof. solve_decision. Defined.
#[export] Instance RuleAction_eq_dec : EqDecision RuleAction.
Proof. solve_decision. Defined.
#[export] Instance ApprovalStatus_eq_dec : EqDecision ApprovalStatus.
Proof. solve_decision. Defined.

Definition role_text (r : Role) : string :=
  match r with
  | admin => "admin" | approver => "approver" | member => "member"
  | lead => "lead" | junior => "junior"
  end.

Definition action_text (a : RuleAction) : string :=
  match a with AUTO_REJECT => "AUTO_REJECT" | AUTO_ACCEPT => "AUTO_ACCEPT" end.

Definition status_text (s : ApprovalStatus) : string :=
  match s with
  | pending => "pending" | approved => "approved" | rejected => "rejected"
  end.

Definition JId (i : Id) : Json := JNum (Z.of_nat i).

(** The row as sent in a response, without its [updatedAt] column,
    which is not modelled. *)
Definition json_of_request (r : ApprovalRequest.t) : Json :=
  JObj [("id", JId r.(ApprovalRequest.id));
        ("userId", JId r.(ApprovalRequest.userId));
        ("commandText", JStr r.(ApprovalRequest.commandText));
        ("status", JStr (status_text r.(ApprovalRequest.status)));
        ("approvalCount", JNum r.(ApprovalRequest.approvalCount));
        ("createdAt", JNum r.(ApprovalRequest.createdAt));
        ("reviewedAt", json_opt JNum r.(ApprovalRequest.reviewedAt));
        ("reviewedBy", json_opt JId r.(ApprovalRequest.reviewedBy))].

Definition json_of_audit (a : AuditTrail.t) : list (string * Json) :=
  [("id", JId a.(AuditTrail.id));
   ("userId", JId a.(AuditTrail.userId));
   ("commandText", JStr a.(AuditTrail.commandText));
   ("creditsDeducted", JNum a.(AuditTrail.creditsDeducted));
   ("creditsBefore", JNum a.(AuditTrail.creditsBefore));
   ("creditsAfter", JNum a.(AuditTrail.creditsAfter));
   ("createdAt", JNum a.(AuditTrail.createdAt))].

(** ** Prisma calls

    A call either returns a value and the database after it, or throws;
    a throwing call leaves the database as it was. *)

Inductive PrismaError :=
| UniqueConstraintFailed (column : string)   (* P2002 *)
| RecordNotFound                             (* P2025 *)
| IntegerOutOfRange                          (* INTEGER column overflow *)
| ValidationFailed (argument : string)       (* wrong type for a column *)
| InvalidByteSequence.                       (* U+0000 in a text value *)

(** [error.message] (its last line). *)
Definition error_message (e : PrismaError) : string :=
  match e with
  | UniqueConstraintFailed column =>
      "Unique constraint failed on the fields: (`" +:+ column +:+ "`)"
  | RecordNotFound =>
      "An operation failed because it depends on one or more records that were required but not found. Record to update not found."
  | IntegerOutOfRange => "integer out of range"
  | ValidationFailed argument =>
      "Argument `" +:+ argument +:+ "`: Invalid value provided. Expected String or Null."
  | InvalidByteSequence => "invalid byte sequence for encoding UTF8: 0x00"
  end.

Inductive Result (A : Type) :=
| Ok (a : A)
| Throw (e : PrismaError).
Arguments Ok {A} a.
Arguments Throw {A} e.

Definition Tx (A : Type) : Type := DB -> Result (A * DB).

(** A text column of PostgreSQL holds no U+0000: a call that is given a
    text value with that character throws, and writes nothing.  Text
    read from a stored row is storable; text of a request body need not
    be. *)
Definition storable (s : string) : bool :=
  negb (existsb (Ascii.eqb "000"%char) (list_ascii_of_string s)).

Definition storable_opt (o : option string) : bool :=
  match o with Some s => storable s | None => true end.

(** A write that takes text values from the request body. *)
Definition request_text {A} (texts : list string) (write : Tx A) : Tx A :=
  fun db => if forallb storable texts then write db else Throw InvalidByteSequence.

(** [prisma.$transaction([op1, op2])]: the two writes are run in order
    inside one database transaction; if either throws, the transaction
    is rolled back, so no database comes out of a throwing run. *)
Definition transaction {A B} (op1 : Tx A) (op2 : Tx B) : Tx (A * B) :=
  fun db =>
    match op1 db with
    | Throw e => Throw e
    | Ok (a, db1) =>
        match op2 db1 with
        | Throw e => Throw e
        | Ok (b, db2) => Ok ((a, b), db2)
        end
    end.

Definition set_users (f : gmap Id User.t -> gmap Id User.t) (db : DB) : DB :=
  {| users := f db.(users); apiKeys := db.(apiKeys);
     regexRules := db.(regexRules); approvalRequests := db.(approvalRequests);
     auditTrail := db.(auditTrail); next_id := db.(next_id) |}.

Definition set_apiKeys (f : gmap string ApiKey.t -> gmap string ApiKey.t) (db : DB) : DB :=
  {| users := db.(users); apiKeys := f db.(apiKeys);
     regexRules := db.(regexRules); approvalRequests := db.(approvalRequests);
     auditTrail := db.(auditTrail); next_id := db.(next_id) |}.

Definition set_approvalRequests
    (f : gmap Id ApprovalRequest.t -> gmap Id ApprovalRequest.t) (db : DB) : DB :=
  {| users := db.(users); apiKeys := db.(apiKeys);
     regexRules := db.(regexRules); approvalRequests := f db.(approvalRequests);
     auditTrail := db.(auditTrail); next_id := db.(next_id) |}.

(** [prisma.approvalRequest.update({ where: { id }, data: { status,
    reviewedAt, reviewedBy } })] *)
Definition approvalRequest_update (requestId : Id) (new_status : ApprovalStatus)
    (reviewedAt : Z) (reviewedBy : Id) : Tx ApprovalRequest.t :=
  fun db =>
    match db.(approvalRequests) !! requestId with
    | None => Throw RecordNotFound
    | Some r =>
        let r' := {| ApprovalRequest.id := r.(ApprovalRequest.id);
                     ApprovalRequest.userId := r.(ApprovalRequest.userId);
                     ApprovalRequest.commandText := r.(ApprovalRequest.commandText);
                     ApprovalRequest.status := new_status;
                     ApprovalRequest.approvalCount := r.(ApprovalRequest.approvalCount);
                     ApprovalRequest.createdAt := r.(ApprovalRequest.createdAt);
                     ApprovalRequest.reviewedAt := Some reviewedAt;
                     ApprovalRequest.reviewedBy := Some reviewedBy |} in
        Ok (r', set_approvalRequests (insert requestId r') db)
    end.

(** [prisma.regexRule.findUnique({ where: { pattern } })] *)
Definition regexRule_findUnique (pattern : string) (db : DB) : option RegexRule.t :=
  List.find (fun r => String.eqb r.(RegexRule.pattern) pattern) db.(regexRules).

(** [prisma.regexRule.create({ data: { pattern, action, exampleMatch } })]
    under the unique index on [pattern], for storable [pattern] and
    [exampleMatch]: approve passes the text of a stored row and the seed
    script its constants; POST /add-regex-rule, which passes text of the
    request body, makes the call under [request_text]. *)
Definition regexRule_create (pattern : string) (action : RuleAction)
    (exampleMatch : option string) (now : Z) : Tx RegexRule.t :=
  fun db =>
    match regexRule_findUnique pattern db with
    | Some _ => Throw (UniqueConstraintFailed "pattern")
    | None =>
        let r := {| RegexRule.id := db.(next_id);
                    RegexRule.pattern := pattern;
                    RegexRule.action := action;
                    RegexRule.exampleMatch := exampleMatch;
                    RegexRule.createdAt := now |} in
        Ok (r, {| users := db.(users); apiKeys := db.(apiKeys);
                  regexRules := db.(regexRules) ++ [r];
                  approvalRequests := db.(approvalRequests);
                  auditTrail := db.(auditTrail);
                  next_id := S db.(next_id) |})
    end.

(** [prisma.regexRule.findMany({ orderBy: { createdAt: "asc" } })] *)
Definition createdAt_asc (a b : RegexRule.t) : Prop :=
  (a.(RegexRule.createdAt) <= b.(RegexRule.createdAt))%Z.

#[export] Instance createdAt_asc_dec a b : Decision (createdAt_asc a b).
Proof. unfold createdAt_asc. apply _. Defined.

Definition regexRule_findMany_asc (db : DB) : list RegexRule.t :=
  merge_sort createdAt_asc db.(regexRules).

Definition int4_min : Z := (- 2147483648)%Z.

(** [prisma.user.update({ where: { id }, data: { credits: { decrement } },
    select: { credits: true } })]: one UPDATE statement that reads and
    writes the row's current balance. *)
Definition user_update_decrement (userId : Id) (amount : Z) : Tx Z :=
  fun db =>
    match db.(users) !! userId with
    | None => Throw RecordNotFound
    | Some u =>
        let c := (u.(User.credits) - amount)%Z in
        if (c <? int4_min)%Z then Throw IntegerOutOfRange
        else
          let u' := {| User.id := u.(User.id); User.username := u.(User.username);
                       User.role := u.(User.role); User.credits := c |} in
          Ok (c, set_users (insert userId u') db)
    end.

(** [prisma.auditTrail.create({ data: { userId, commandText,
    creditsDeducted, creditsBefore, creditsAfter } })]; it throws on a
    [commandText] that is not storable. *)
Definition auditTrail_create (userId : Id) (commandText : string)
    (creditsDeducted creditsBefore creditsAfter : Z) (now : Z) : Tx AuditTrail.t :=
  fun db =>
    if negb (storable commandText) then Throw InvalidByteSequence else
    let a := {| AuditTrail.id := db.(next_id);
                AuditTrail.userId := userId;
                AuditTrail.commandText := commandText;
                AuditTrail.creditsDeducted := creditsDeducted;
                AuditTrail.creditsBefore := creditsBefore;
                AuditTrail.creditsAfter := creditsAfter;
                AuditTrail.createdAt := now |} in
    Ok (a, {| users := db.(users); apiKeys := db.(apiKeys);
              regexRules := db.(regexRules);
              approvalRequests := db.(approvalRequests);
              auditTrail := db.(auditTrail) ++ [a];
              next_id := S db.(next_id) |}).

(** [orderBy: { createdAt: "desc" }] on the audit table. *)
Definition audit_desc (a b : AuditTrail.t) : Prop :=
  (b.(AuditTrail.createdAt) <= a.(AuditTrail.createdAt))%Z.

#[export] Instance audit_desc_dec a b : Decision (audit_desc a b).
Proof. unfold audit_desc. apply _. Defined.

(** ** Handlers of [api/approval-requests.ts] *)

(** [commandText.replace(/[.*+?^${}()|[\]\\]/g, '\\$&')]: every
    character of the class is replaced by a backslash followed by
    itself. *)
Definition escaped_chars : list ascii :=
  ["."; "*"; "+"; "?"; "^"; "$"; "{"; "}"; "("; ")"; "|"; "["; "]";
   JsRegExp.backslash]%char.

Definition is_escaped_char (c : ascii) : bool :=
  existsb (Ascii.eqb c) escaped_chars.

Fixpoint escapedCommand (commandText : string) : string :=
  match commandText with
  | EmptyString => EmptyString
  | String c rest =>
      if is_escaped_char c
      then String JsRegExp.backslash (String c (escapedCommand rest))
      else String c (escapedCommand rest)
  end.

(** [`^${escapedCommand}$`] *)
Definition approval_pattern (commandText : string) : string :=
  "^" +:+ escapedCommand commandText +:+ "$".

(** POST /approval-requests/:requestId/approve, after
    [authenticateApprover] has set [req.user] to [approverUser]. *)
Definition approve (requestId : Id) (approverUser : User.t) (now : Z) (db : DB)
  : Response * DB :=
  match db.(approvalRequests) !! requestId with
  | None => (json 404 [("error", JStr "Approval request not found")], db)
  | Some approvalRequest =>
      if negb (bool_decide (approvalRequest.(ApprovalRequest.status) = pending)) then
        (json 400
           [("error", JStr ("Request is already " +:+
                            status_text approvalRequest.(ApprovalRequest.status)))],
         db)
      else
        let pattern := approval_pattern approvalRequest.(ApprovalRequest.commandText) in
        match transaction
                (approvalRequest_update requestId approved now approverUser.(User.id))
                (regexRule_create pattern AUTO_ACCEPT
                   (Some approvalRequest.(ApprovalRequest.commandText)) now) db with
        | Ok ((updatedRequest, regexRule), db') =>
            (json 200
               [("message", JStr "Approval request approved and regex rule created");
                ("request", json_of_request updatedRequest);
                ("rule", JObj [("id", JId regexRule.(RegexRule.id));
                               ("pattern", JStr regexRule.(RegexRule.pattern));
                               ("action", JStr (action_text regexRule.(RegexRule.action)))])],
             db')
        | Throw error =>
            if includes (error_message error) "Unique constraint" then
              (json 409 [("error", JStr "A regex rule for this command already exists")], db)
            else
              (json 500 [("error", JStr "Internal server error");
                         ("message", JStr (error_message error))], db)
        end
  end.

(** POST /approval-requests/:requestId/reject *)
Definition reject (requestId : Id) (approverUser : User.t) (now : Z) (db : DB)
  : Response * DB :=
  match db.(approvalRequests) !! requestId with
  | None => (json 404 [("error", JStr "Approval request not found")], db)
  | Some approvalRequest =>
      if negb (bool_decide (approvalRequest.(ApprovalRequest.status) = pending)) then
        (json 400
           [("error", JStr ("Request is already " +:+
                            status_text approvalRequest.(ApprovalRequest.status)))],
         db)
      else
        match approvalRequest_update requestId rejected now approverUser.(User.id) db with
        | Ok (updatedRequest, db') =>
            (json 200 [("message", JStr "Approval request rejected");
                       ("request", json_of_request updatedRequest)], db')
        | Throw error =>
            (json 500 [("error", JStr "Internal server error");
                       ("message", JStr (error_message error))], db)
        end
  end.

(** The row [approvalRequest.update] leaves, the rule [approve] creates
    and its two error responses. *)
Definition reviewed (request : ApprovalRequest.t) (st : ApprovalStatus)
    (now : Z) (approverUser : User.t) : ApprovalRequest.t :=
  {| ApprovalRequest.id := request.(ApprovalRequest.id);
     ApprovalRequest.userId := request.(ApprovalRequest.userId);
     ApprovalRequest.commandText := request.(ApprovalRequest.commandText);
     ApprovalRequest.status := st;
     ApprovalRequest.approvalCount := request.(ApprovalRequest.approvalCount);
     ApprovalRequest.createdAt := request.(ApprovalRequest.createdAt);
     ApprovalRequest.reviewedAt := Some now;
     ApprovalRequest.reviewedBy := Some approverUser.(User.id) |}.

Definition approved_rule (request : ApprovalRequest.t) (now : Z) (id : Id)
  : RegexRule.t :=
  {| RegexRule.id := id;
     RegexRule.pattern := approval_pattern request.(ApprovalRequest.commandText);
     RegexRule.action := AUTO_ACCEPT;
     RegexRule.exampleMatch := Some request.(ApprovalRequest.commandText);
     RegexRule.createdAt := now |}.

Definition already (request : ApprovalRequest.t) : Response :=
  json 400 [("error", JStr ("Request is already " +:+
                            status_text request.(ApprovalRequest.status)))].

Definition rule_exists : Response :=
  json 409 [("error", JStr "A regex rule for this command already exists")].

Section Handlers.

Context {engine : RegExpEngine}.

(** ** Handlers of [api/regex-rules.ts] *)

Definition isValidRegex (pattern : string) : bool :=
  match newRegExp pattern with Some _ => true | None => false end.

(** POST /add-regex-rule, after [authenticateAdmin]; [pattern],
    [action] and [exampleMatch] are the fields of [req.body]. *)
Definition add_regex_rule (pattern action exampleMatch : Json) (now : Z) (db : DB)
  : Response * DB :=
  match pattern with
  | JStr pattern_s =>
      if negb (truthy pattern) then
        (json 400 [("error", JStr "pattern is required and must be a string")], db)
      else
        match action with
        | JStr action_s =>
            if negb (truthy action) then
              (json 400 [("error", JStr "action is required and must be a string")], db)
            else
              match (if String.eqb action_s "AUTO_REJECT" then Some AUTO_REJECT
                     else if String.eqb action_s "AUTO_ACCEPT" then Some AUTO_ACCEPT
                     else None) with
              | None =>
                  (json 400
                     [("error", JStr "action must be either 'AUTO_REJECT' or 'AUTO_ACCEPT'")],
                   db)
              | Some rule_action =>
                  if negb (isValidRegex pattern_s) then
                    (json 400
                       [("error", JStr "Invalid regex pattern");
                        ("message",
                         JStr "The provided pattern is not a valid regular expression")],
                     db)
                  else
                    match regexRule_findUnique pattern_s db with
                    | Some existingRule =>
                        (json 409
                           [("error", JStr "Pattern already exists");
                            ("message", JStr "A rule with this pattern already exists")],
                         db)
                    | None =>
                        (* exampleMatch || null, stored in a nullable text column *)
                        let created :=
                          match (if truthy exampleMatch then exampleMatch else JNull) with
                          | JStr e =>
                              request_text [pattern_s; e]
                                (regexRule_create pattern_s rule_action (Some e) now) db
                          | JNull =>
                              request_text [pattern_s]
                                (regexRule_create pattern_s rule_action None now) db
                          | _ => Throw (ValidationFailed "exampleMatch")
                          end in
                        match created with
                        | Ok (regexRule, db') =>
                            (json 201
                               [("message", JStr "Regex rule added successfully");
                                ("rule",
                                 JObj [("id", JId regexRule.(RegexRule.id));
                                       ("pattern", JStr regexRule.(RegexRule.pattern));
                                       ("action",
                                        JStr (action_text regexRule.(RegexRule.action)));
                                       ("exampleMatch",
                                        json_opt JStr regexRule.(RegexRule.exampleMatch));
                                       ("createdAt", JNum regexRule.(RegexRule.createdAt))])],
                             db')
                        | Throw error =>
                            (json 500 [("error", JStr "Internal server error");
                                       ("message", JStr (error_message error))], db)
                        end
                    end
              end
        | _ => (json 400 [("error", JStr "action is required and must be a string")], db)
        end
  | _ => (json 400 [("error", JStr "pattern is required and must be a string")], db)
  end.

(** GET /audit-logs: [findMany({ include: { user: { select: { id,
    username, role } } }, orderBy: { createdAt: "desc" }, take: 500 })] *)
Definition audit_logs_rows (db : DB) : list (AuditTrail.t * option User.t) :=
  take 500 ((fun a => (a, db.(users) !! a.(AuditTrail.userId)))
              <$> merge_sort audit_desc db.(auditTrail)).

Definition json_of_log (row : AuditTrail.t * option User.t) : Json :=
  JObj (json_of_audit row.1 ++
        [("user",
          json_opt (fun u => JObj [("id", JId u.(User.id));
                                   ("username", JStr u.(User.username));
                                   ("role", JStr (role_text u.(User.role)))])
                   row.2)]).

Definition audit_logs (db : DB) : Response :=
  let logs := audit_logs_rows db in
  json 200 [("logs", JArr (json_of_log <$> logs));
            ("count", JNum (Z.of_nat (length logs)))].

(** ** Handlers of [api/commands.ts] *)

(** GET /command-history: [findMany({ where: { userId: user.id },
    orderBy: { createdAt: "desc" }, take: 100 })] *)
Definition command_history_rows (user : User.t) (db : DB) : list AuditTrail.t :=
  take 100
    (merge_sort audit_desc
       (List.filter (fun a => Nat.eqb a.(AuditTrail.userId) user.(User.id))
                    db.(auditTrail))).

Definition command_history (user : User.t) (db : DB) : Response :=
  let history := command_history_rows user db in
  json 200 [("history", JArr ((fun a => JObj (json_of_audit a)) <$> history));
            ("count", JNum (Z.of_nat (length history)))].

(** The rule-matching loop of POST /command: the first rule of the
    scan whose pattern compiles and tests true; a rule whose pattern
    throws on compilation is passed over ([catch] ... [continue]). *)
Fixpoint matchedRule (regexRules : list RegexRule.t) (command_text : string)
  : option RegexRule.t :=
  match regexRules with
  | [] => None
  | rule :: rest =>
      match newRegExp rule.(RegexRule.pattern) with
      | Some regex =>
          if regexp_test regex command_text then Some rule
          else matchedRule rest command_text
      | None => matchedRule rest command_text
      end
  end.

(** A rule matches a text when its pattern compiles and tests true. *)
Definition rule_matches (rule : RegexRule.t) (text : string) : Prop :=
  exists regex,
    newRegExp rule.(RegexRule.pattern) = Some regex /\ regexp_test regex text = true.

(** [evaluate]: the scan over [findMany({ orderBy: { createdAt: "asc" } })]. *)
Definition evaluate (db : DB) (command_text : string) : option RegexRule.t :=
  matchedRule (regexRule_findMany_asc db) command_text.

Definition json_of_match (rule : RegexRule.t) : Json :=
  JObj [("pattern", JStr rule.(RegexRule.pattern));
        ("action", JStr (action_text rule.(RegexRule.action)))].

(** POST /command up to the credit check: either a response is sent,
    or the handler goes on to charge [user] for [command_text]. *)
Inductive Checked :=
| Respond (res : Response)
| Charge (command_text : string) (rule : RegexRule.t).

Definition command_check (user : User.t) (command_text : Json) (db : DB) : Checked :=
  match command_text with
  | JStr text =>
      if negb (truthy command_text) then
        Respond (json 400 [("error", JStr "command_text is required and must be a string")])
      else
        match evaluate db text with
        | None =>
            Respond (json 400
              [("status", JStr "rejected");
               ("command", command_text);
               ("error", JStr "Command does not match any allowed pattern");
               ("message", JStr "The command does not match any regex rule in the system")])
        | Some rule =>
            if bool_decide (rule.(RegexRule.action) = AUTO_REJECT) then
              Respond (json 403
                [("status", JStr "rejected");
                 ("command", command_text);
                 ("error", JStr "Command rejected by security rule");
                 ("message", JStr ("Command matches a rejected pattern: " +:+
                                   rule.(RegexRule.pattern)));
                 ("matched_rule", json_of_match rule)])
            else if (user.(User.credits) <? 10)%Z then
              Respond (json 403
                [("error", JStr "Insufficient credits");
                 ("message",
                  JStr ("You need at least 10 credits to submit a command. Your current balance: "
                        +:+ pretty user.(User.credits)));
                 ("current_balance", JNum user.(User.credits))])
            else Charge text rule
        end
  | _ => Respond (json 400 [("error", JStr "command_text is required and must be a string")])
  end.

(** The charge of POST /command: the decrement and the audit row in one
    transaction.  [creditsBefore] is [user.credits], the balance in
    [req.user]. *)
Definition command_charge (user : User.t) (command_text : string)
    (rule : RegexRule.t) (now : Z) (db : DB) : Response * DB :=
  let creditsBefore := user.(User.credits) in
  let creditsDeducted := 10%Z in
  match transaction
          (user_update_decrement user.(User.id) creditsDeducted)
          (auditTrail_create user.(User.id) command_text creditsDeducted
             creditsBefore (creditsBefore - creditsDeducted) now) db with
  | Ok ((updatedUser_credits, auditTrail), db') =>
      (json 200
         [("status", JStr "executed");
          ("command", JStr command_text);
          ("message", JStr "Command logged successfully");
          ("new_balance", JNum updatedUser_credits);
          ("credits_deducted", JNum creditsDeducted);
          ("audit_trail_id", JId auditTrail.(AuditTrail.id));
          ("matched_rule", json_of_match rule)],
       db')
  | Throw error =>
      (json 500 [("error", JStr "Internal server error");
                 ("message", JStr (error_message error))], db)
  end.

(** POST /command after [authenticateApiKey] has set [req.user]. *)
Definition command (user : User.t) (command_text : Json) (now : Z) (db : DB)
  : Response * DB :=
  match command_check user command_text db with
  | Respond res => (res, db)
  | Charge text rule => command_charge user text rule now db
  end.

(** ** Requests in flight

    [authenticateApiKey] followed by the POST /command handler, cut at
    its [await]s.  Each database call is one atomic step; between two
    steps of a request the steps of other requests may run. *)
Inductive InFlight :=
| Received (apiKey : option string) (command_text : Json)
| KeyFound (keyRecord : ApiKey.t) (user : User.t) (command_text : Json)
| Authenticated (user : User.t) (command_text : Json)
| Charging (user : User.t) (command_text : string) (rule : RegexRule.t)
| Responded (res : Response).

(** [prisma.apiKey.update({ where: { id: keyRecord.id },
    data: { lastUsed: new Date() } })] *)
Definition apiKey_update_lastUsed (keyRecord : ApiKey.t) (now : Z) : Tx unit :=
  fun db =>
    match db.(apiKeys) !! keyRecord.(ApiKey.key) with
    | Some r =>
        if Nat.eqb r.(ApiKey.id) keyRecord.(ApiKey.id) then
          Ok (tt, set_apiKeys
                    (insert r.(ApiKey.key)
                       {| ApiKey.id := r.(ApiKey.id); ApiKey.key := r.(ApiKey.key);
                          ApiKey.userId := r.(ApiKey.userId);
                          ApiKey.lastUsed := Some now |}) db)
        else Throw RecordNotFound
    | None => Throw RecordNotFound
    end.

Definition auth_failed : Response :=
  json 500 [("error", JStr "Internal server error during authentication")].

Definition step (now : Z) (t : InFlight) (db : DB) : InFlight * DB :=
  match t with
  | Received apiKey command_text =>
      match apiKey with
      | None | Some EmptyString =>
          (Responded
             (json 401
                [("error",
                  JStr "API key is required. Please provide it in the X-API-Key header.")]),
           db)
      | Some k =>
          (* findUnique({ where: { key: apiKey }, include: { user: true } }) *)
          match db.(apiKeys) !! k with
          | None => (Responded (json 401 [("error", JStr "Invalid API key")]), db)
          | Some keyRecord =>
              match db.(users) !! keyRecord.(ApiKey.userId) with
              | Some user => (KeyFound keyRecord user command_text, db)
              | None => (Responded auth_failed, db)
              end
          end
      end
  | KeyFound keyRecord user command_text =>
      match apiKey_update_lastUsed keyRecord now db with
      | Ok (_, db') => (Authenticated user command_text, db')
      | Throw _ => (Responded auth_failed, db)
      end
  | Authenticated user command_text =>
      match command_check user command_text db with
      | Respond res => (Responded res, db)
      | Charge text rule => (Charging user text rule, db)
      end
  | Charging user text rule =>
      let (res, db') := command_charge user text rule now db in
      (Responded res, db')
  | Responded res => (t, db)
  end.

(** One request served alone, from the header check to the response. *)
Definition post_command (apiKey : option string) (command_text : Json)
    (now : Z) (db : DB) : InFlight * DB :=
  let (t1, db1) := step now (Received apiKey command_text) db in
  let (t2, db2) := step now t1 db1 in
  let (t3, db3) := step now t2 db2 in
  step now t3 db3.

(** Two requests in flight: the schedule names, turn by turn, which of
    them is resumed, and the time at that turn. *)
Inductive Turn := First (now : Z) | Second (now : Z).

Fixpoint run (schedule : list Turn) (t1 t2 : InFlight) (db : DB)
  : InFlight * InFlight * DB :=
  match schedule with
  | [] => (t1, t2, db)
  | First now :: rest =>
      let (t1', db') := step now t1 db in run rest t1' t2 db'
  | Second now :: rest =>
      let (t2', db') := step now t2 db in run rest t1 t2' db'
  end.

Definition response_status (t : InFlight) : option nat :=
  match t with Responded res => Some res.(status_code) | _ => None end.

End Handlers.

(** ** Sample data *)

Module Sample.

Definition alice : User.t :=
  {| User.id := 1; User.username := "alice"; User.role := member; User.credits := 15 |}.

Definition bob : User.t :=
  {| User.id := 2; User.username := "bob"; User.role := approver; User.credits := 100 |}.

Definition carol : User.t :=
  {| User.id := 3; User.username := "carol"; User.role := approver; User.credits := 100 |}.

Definition dave : User.t :=
  {| User.id := 11; User.username := "dave"; User.role := junior; User.credits := 5 |}.

Definition alice_key : ApiKey.t :=
  {| ApiKey.id := 4; ApiKey.key := "sk_alice"; ApiKey.userId := 1; ApiKey.lastUsed := None |}.

Definition ls_rule : RegexRule.t :=
  {| RegexRule.id := 5; RegexRule.pattern := "^(ls|cat|pwd|echo)";
     RegexRule.action := AUTO_ACCEPT; RegexRule.exampleMatch := Some "ls -la, cat file.txt";
     RegexRule.createdAt := 1000 |}.

Definition broken_rule : RegexRule.t :=
  {| RegexRule.id := 6; RegexRule.pattern := "(";
     RegexRule.action := AUTO_REJECT; RegexRule.exampleMatch := None;
     RegexRule.createdAt := 1001 |}.

Definition make_request (id : Id) (text : string) (st : ApprovalStatus) : ApprovalRequest.t :=
  {| ApprovalRequest.id := id; ApprovalRequest.userId := 1;
     ApprovalRequest.commandText := text; ApprovalRequest.status := st;
     ApprovalRequest.approvalCount := 0; ApprovalRequest.createdAt := 2000;
     ApprovalRequest.reviewedAt := None; ApprovalRequest.reviewedBy := None |}.

(** Alice holds 15 credits; one request of hers, [make test], is
    pending with no vote, and one, [make clean], was approved. *)
Definition db0 : DB :=
  {| users := <[1 := alice]> (<[2 := bob]> (<[3 := carol]> ∅));
     apiKeys := <["sk_alice" := alice_key]> ∅;
     regexRules := [ls_rule; broken_rule];
     approvalRequests :=
       <[7 := make_request 7 "make test" pending]>
         (<[8 := make_request 8 "make clean" approved]> ∅);
     auditTrail := [];
     next_id := 9 |}.

Definition make_rule : RegexRule.t :=
  {| RegexRule.id := 12; RegexRule.pattern := "^make test$";
     RegexRule.action := AUTO_REJECT; RegexRule.exampleMatch := None;
     RegexRule.createdAt := 1002 |}.

(** [db0] with a rule for [make test] already in place. *)
Definition db1 : DB :=
  {| users := db0.(users); apiKeys := db0.(apiKeys);
     regexRules := db0.(regexRules) ++ [make_rule];
     approvalRequests := db0.(approvalRequests);
     auditTrail := db0.(auditTrail);
     next_id := 13 |}.

(** Two POST /command requests of Alice for [ls], and a schedule in
    which both are authenticated before either is charged. *)
Definition ls_request : InFlight := Received (Some "sk_alice") (JStr "ls").

Definition racing : list Turn :=
  [First 1; First 2; Second 3; Second 4; First 5; Second 6; First 7; Second 8].

Definition one_after_the_other : list Turn :=
  [First 1; First 2; First 3; First 4; Second 5; Second 6; Second 7; Second 8].

End Sample.

(** ** Middlewares

    [authenticateApiKey] ([api/commands.ts], [api/approval-requests.ts]),
    [authenticateAdmin] ([api/regex-rules.ts]) and [authenticateApprover]
    ([api/approval-requests.ts]) are the same function up to the role
    test made between the key lookup and the [lastUsed] update. *)

Inductive Auth :=
| Denied (res : Response)
| Granted (user : User.t).

Definition key_required : Response :=
  json 401 [("error",
             JStr "API key is required. Please provide it in the X-API-Key header.")].

Definition invalid_key : Response := json 401 [("error", JStr "Invalid API key")].

Definition forbidden (message : string) : Response :=
  json 403 [("error", JStr "Forbidden"); ("message", JStr message)].

Definition authenticate (role_check : User.t -> option Response)
    (apiKey : option string) (now : Z) (db : DB) : Auth * DB :=
  match apiKey with
  | None | Some EmptyString => (Denied key_required, db)
  | Some k =>
      match db.(apiKeys) !! k with
      | None => (Denied invalid_key, db)
      | Some keyRecord =>
          match db.(users) !! keyRecord.(ApiKey.userId) with
          | None => (Denied auth_failed, db)
          | Some user =>
              match role_check user with
              | Some res => (Denied res, db)
              | None =>
                  match apiKey_update_lastUsed keyRecord now db with
                  | Ok (_, db') => (Granted user, db')
                  | Throw _ => (Denied auth_failed, db)
                  end
              end
          end
      end
  end.

Definition authenticateApiKey : option string -> Z -> DB -> Auth * DB :=
  authenticate (fun _ => None).

Definition authenticateAdmin : option string -> Z -> DB -> Auth * DB :=
  authenticate (fun user =>
    if bool_decide (user.(User.role) = admin) then None
    else Some (forbidden "Only administrators can access this endpoint")).

Definition authenticateApprover : option string -> Z -> DB -> Auth * DB :=
  authenticate (fun user =>
    if bool_decide (user.(User.role) = approver) then None
    else Some (forbidden "Only approvers can access this endpoint")).

(** [router.verb(path, middleware, handler)]: the handler runs on the
    database the middleware leaves, with [req.user] set. *)
Definition route (middleware : option string -> Z -> DB -> Auth * DB)
    (handler : User.t -> Z -> DB -> Response * DB)
    (apiKey : option string) (now : Z) (db : DB) : Response * DB :=
  match middleware apiKey now db with
  | (Denied res, db') => (res, db')
  | (Granted user, db') => handler user now db'
  end.

(** POST /approval-requests/:requestId/approve and .../reject, with
    their middleware. *)
Definition post_approve (requestId : Id) : option string -> Z -> DB -> Response * DB :=
  route authenticateApprover (approve requestId).

Definition post_reject (requestId : Id) : option string -> Z -> DB -> Response * DB :=
  route authenticateApprover (reject requestId).

(** POST /login of [api/register.ts] *)
Definition login (apiKey : option string) (now : Z) (db : DB) : Response * DB :=
  match apiKey with
  | None | Some EmptyString => (json 400 [("error", JStr "API key is required")], db)
  | Some k =>
      match db.(apiKeys) !! k with
      | None => (json 401 [("error", JStr "Invalid API key")], db)
      | Some keyRecord =>
          match db.(users) !! keyRecord.(ApiKey.userId) with
          | None => (json 500 [("error", JStr "Internal server error")], db)
          | Some user =>
              match apiKey_update_lastUsed keyRecord now db with
              | Ok (_, db') =>
                  (json 200 [("message", JStr "Login successful");
                             ("userId", JId user.(User.id));
                             ("username", JStr user.(User.username));
                             ("role", JStr (role_text user.(User.role)));
                             ("credits", JNum user.(User.credits))], db')
              | Throw _ => (json 500 [("error", JStr "Internal server error")], db)
              end
          end
      end
  end.

(** ** Submitting and listing approval requests *)

(** [String.prototype.trim] strips white space and line terminators,
    the characters of the class [\s], from both ends. *)
Fixpoint trim_start (s : list ascii) : list ascii :=
  match s with
  | [] => []
  | c :: rest =>
      if JsRegExp.in_class JsRegExp.Space c then trim_start rest else s
  end.

Definition trim (s : string) : string :=
  string_of_list_ascii
    (rev (trim_start (rev (trim_start (list_ascii_of_string s))))).

(** [prisma.approvalRequest.create({ data: { userId, commandText,
    status: "pending" } })]; the other columns take their defaults.  It
    throws on a [commandText] that is not storable. *)
Definition approvalRequest_create (userId : Id) (commandText : string) (now : Z)
  : Tx ApprovalRequest.t :=
  fun db =>
    if negb (storable commandText) then Throw InvalidByteSequence else
    let r := {| ApprovalRequest.id := db.(next_id);
                ApprovalRequest.userId := userId;
                ApprovalRequest.commandText := commandText;
                ApprovalRequest.status := pending;
                ApprovalRequest.approvalCount := 0;
                ApprovalRequest.createdAt := now;
                ApprovalRequest.reviewedAt := None;
                ApprovalRequest.reviewedBy := None |} in
    Ok (r, {| users := db.(users); apiKeys := db.(apiKeys);
              regexRules := db.(regexRules);
              approvalRequests := <[db.(next_id) := r]> db.(approvalRequests);
              auditTrail := db.(auditTrail);
              next_id := S db.(next_id) |}).

(** POST /approval-request after [authenticateApiKey].  The e-mails to
    the approvers are sent after the row is created, inside a [try]
    whose [catch] only logs; they touch neither the database nor the
    response and are left out. *)
Definition approval_request (user : User.t) (command_text : Json) (now : Z) (db : DB)
  : Response * DB :=
  match command_text with
  | JStr text =>
      if negb (truthy command_text) then
        (json 400 [("error", JStr "command_text is required and must be a string")], db)
      else if Nat.eqb (String.length (trim text)) 0 then
        (json 400 [("error", JStr "command_text cannot be empty")], db)
      else
        match approvalRequest_create user.(User.id) (trim text) now db with
        | Ok (approvalRequest, db') =>
            (json 201
               [("message", JStr "Approval request submitted successfully");
                ("request",
                 JObj [("id", JId approvalRequest.(ApprovalRequest.id));
                       ("commandText", JStr approvalRequest.(ApprovalRequest.commandText));
                       ("status", JStr (status_text approvalRequest.(ApprovalRequest.status)));
                       ("createdAt", JNum approvalRequest.(ApprovalRequest.createdAt))])],
             db')
        | Throw error =>
            (json 500 [("error", JStr "Internal server error");
                       ("message", JStr (error_message error))], db)
        end
  | _ => (json 400 [("error", JStr "command_text is required and must be a string")], db)
  end.

Definition request_desc (a b : ApprovalRequest.t) : Prop :=
  (b.(ApprovalRequest.createdAt) <= a.(ApprovalRequest.createdAt))%Z.

#[export] Instance request_desc_dec a b : Decision (request_desc a b).
Proof. unfold request_desc. apply _. Defined.

(** GET /approval-requests: an admin or approver is given every
    request, anyone else the requests whose [userId] is theirs
    ([findMany({ where: { userId: user.id }, ... })]), newest first. *)
Definition approval_requests_rows (user : User.t) (db : DB) : list ApprovalRequest.t :=
  let all := (map_to_list db.(approvalRequests)).*2 in
  if bool_decide (user.(User.role) = admin) || bool_decide (user.(User.role) = approver)
  then merge_sort request_desc all
  else merge_sort request_desc
         (List.filter (fun r => Nat.eqb r.(ApprovalRequest.userId) user.(User.id)) all).

(** ** Updating and deleting rules, seeding *)

Definition regexRule_findUnique_id (ruleId : Id) (db : DB) : option RegexRule.t :=
  List.find (fun r => Nat.eqb r.(RegexRule.id) ruleId) db.(regexRules).

Fixpoint replace_rule (ruleId : Id) (r' : RegexRule.t) (rules : list RegexRule.t)
  : list RegexRule.t :=
  match rules with
  | [] => []
  | r :: rest =>
      if Nat.eqb r.(RegexRule.id) ruleId then r' :: rest
      else r :: replace_rule ruleId r' rest
  end.

Fixpoint remove_rule (ruleId : Id) (rules : list RegexRule.t) : list RegexRule.t :=
  match rules with
  | [] => []
  | r :: rest =>
      if Nat.eqb r.(RegexRule.id) ruleId then rest
      else r :: remove_rule ruleId rest
  end.

Definition set_regexRules (f : list RegexRule.t -> list RegexRule.t) (db : DB) : DB :=
  {| users := db.(users); apiKeys := db.(apiKeys);
     regexRules := f db.(regexRules); approvalRequests := db.(approvalRequests);
     auditTrail := db.(auditTrail); next_id := db.(next_id) |}.

(** [prisma.regexRule.update({ where: { id }, data: { pattern, action,
    exampleMatch } })] under the unique index on [pattern]; it throws on
    a [pattern] or an [exampleMatch] that is not storable. *)
Definition regexRule_update (ruleId : Id) (pattern : string) (action : RuleAction)
    (exampleMatch : option string) : Tx RegexRule.t :=
  fun db =>
    if negb (storable pattern && storable_opt exampleMatch) then Throw InvalidByteSequence
    else
    match regexRule_findUnique_id ruleId db with
    | None => Throw RecordNotFound
    | Some r =>
        let r' := {| RegexRule.id := r.(RegexRule.id);
                     RegexRule.pattern := pattern;
                     RegexRule.action := action;
                     RegexRule.exampleMatch := exampleMatch;
                     RegexRule.createdAt := r.(RegexRule.createdAt) |} in
        match regexRule_findUnique pattern db with
        | Some other =>
            if Nat.eqb other.(RegexRule.id) ruleId
            then Ok (r', set_regexRules (replace_rule ruleId r') db)
            else Throw (UniqueConstraintFailed "pattern")
        | None => Ok (r', set_regexRules (replace_rule ruleId r') db)
        end
    end.

(** [prisma.regexRule.delete({ where: { id } })] *)
Definition regexRule_delete (ruleId : Id) : Tx unit :=
  fun db =>
    match regexRule_findUnique_id ruleId db with
    | None => Throw RecordNotFound
    | Some _ => Ok (tt, set_regexRules (remove_rule ruleId) db)
    end.

(** [prisma.regexRule.upsert({ where: { pattern }, update: {}, create })] *)
Definition regexRule_upsert (pattern : string) (action : RuleAction)
    (exampleMatch : option string) (now : Z) : Tx RegexRule.t :=
  fun db =>
    match regexRule_findUnique pattern db with
    | Some r => Ok (r, db)
    | None => regexRule_create pattern action exampleMatch now db
    end.

(** The default rules of the seed script. *)
Definition defaultRules : list (string * RuleAction * string) :=
  [(":(){ :|:& };:", AUTO_REJECT, ":(){ :|:& };: (fork bomb)");
   ("rm\s+-rf\s+/", AUTO_REJECT, "rm -rf /");
   ("mkfs\.", AUTO_REJECT, "mkfs.ext4 /dev/sda");
   ("git\s+(status|log|diff)", AUTO_ACCEPT, "git status, git log");
   ("^(ls|cat|pwd|echo)", AUTO_ACCEPT, "ls -la, cat file.txt")]%string.

(** [main] of the seed script: one upsert per default rule; a failing
    upsert is logged and the loop goes on. *)
Definition seed_rules (rules : list (string * RuleAction * string)) (now : Z) (db : DB)
  : DB :=
  fold_left
    (fun db rule =>
       match regexRule_upsert rule.1.1 rule.1.2 (Some rule.2) now db with
       | Ok (_, db') => db'
       | Throw _ => db
       end)
    rules db.

Definition seed : Z -> DB -> DB := seed_rules defaultRules.

Section RuleHandlers.

Context {engine : RegExpEngine}.

(** PUT /regex-rules/:ruleId after [authenticateAdmin] *)
Definition update_regex_rule (ruleId : Id) (pattern action exampleMatch : Json)
    (now : Z) (db : DB) : Response * DB :=
  match pattern with
  | JStr pattern_s =>
      if negb (truthy pattern) then
        (json 400 [("error", JStr "pattern is required and must be a string")], db)
      else
        match action with
        | JStr action_s =>
            if negb (truthy action) then
              (json 400 [("error", JStr "action is required and must be a string")], db)
            else
              match (if String.eqb action_s "AUTO_REJECT" then Some AUTO_REJECT
                     else if String.eqb action_s "AUTO_ACCEPT" then Some AUTO_ACCEPT
                     else None) with
              | None =>
                  (json 400
                     [("error", JStr "action must be either 'AUTO_REJECT' or 'AUTO_ACCEPT'")],
                   db)
              | Some rule_action =>
                  if negb (isValidRegex pattern_s) then
                    (json 400
                       [("error", JStr "Invalid regex pattern");
                        ("message",
                         JStr "The provided pattern is not a valid regular expression")],
                     db)
                  else
                    match regexRule_findUnique_id ruleId db with
                    | None => (json 404 [("error", JStr "Regex rule not found")], db)
                    | Some existingRule =>
                        (* patternExists && patternExists.id !== ruleId *)
                        if match regexRule_findUnique pattern_s db with
                           | Some patternExists =>
                               negb (Nat.eqb patternExists.(RegexRule.id) ruleId)
                           | None => false
                           end
                        then
                          (json 409
                             [("error", JStr "Pattern already exists");
                              ("message", JStr "A rule with this pattern already exists")],
                           db)
                        else
                          let updated :=
                            match (if truthy exampleMatch then exampleMatch else JNull) with
                            | JStr e => regexRule_update ruleId pattern_s rule_action (Some e) db
                            | JNull => regexRule_update ruleId pattern_s rule_action None db
                            | _ => Throw (ValidationFailed "exampleMatch")
                            end in
                          match updated with
                          | Ok (updatedRule, db') =>
                              (json 200
                                 [("message", JStr "Regex rule updated successfully");
                                  ("rule",
                                   JObj [("id", JId updatedRule.(RegexRule.id));
                                         ("pattern", JStr updatedRule.(RegexRule.pattern));
                                         ("action",
                                          JStr (action_text updatedRule.(RegexRule.action)));
                                         ("exampleMatch",
                                          json_opt JStr updatedRule.(RegexRule.exampleMatch));
                                         ("createdAt", JNum updatedRule.(RegexRule.createdAt));
                                         ("updatedAt", JNum now)])],
                               db')
                          | Throw error =>
                              (json 500 [("error", JStr "Internal server error");
                                         ("message", JStr (error_message error))], db)
                          end
                    end
              end
        | _ => (json 400 [("error", JStr "action is required and must be a string")], db)
        end
  | _ => (json 400 [("error", JStr "pattern is required and must be a string")], db)
  end.

End RuleHandlers.

(** DELETE /regex-rules/:ruleId after [authenticateAdmin] *)
Definition delete_regex_rule (ruleId : Id) (db : DB) : Response * DB :=
  match regexRule_findUnique_id ruleId db with
  | None => (json 404 [("error", JStr "Regex rule not found")], db)
  | Some existingRule =>
      match regexRule_delete ruleId db with
      | Ok (_, db') => (json 200 [("message", JStr "Regex rule deleted successfully")], db')
      | Throw error =>
          (json 500 [("error", JStr "Internal server error");
                     ("message", JStr (error_message error))], db)
      end
  end.

(** ** Balances *)

Definition int4_max : Z := 2147483647%Z.

(** [prisma.user.update({ where: { id: userId }, data: { credits },
    select: { id, username, credits } })] *)
Definition user_update_credits (userId : Id) (credits : Z) : Tx User.t :=
  fun db =>
    match db.(users) !! userId with
    | None => Throw RecordNotFound
    | Some u =>
        if (int4_max <? credits)%Z then Throw IntegerOutOfRange
        else
          let u' := {| User.id := u.(User.id); User.username := u.(User.username);
                       User.role := u.(User.role); User.credits := credits |} in
          Ok (u', set_users (insert userId u') db)
    end.

(** PUT /users/:userId/credits after [authenticateAdmin].  [JNum]
    carries the integral numbers; a fractional [credits] is not
    represented. *)
Definition update_user_credits (userId : Id) (credits : Json) (db : DB) : Response * DB :=
  match credits with
  | JNum n =>
      if (n <? 0)%Z then
        (json 400 [("error", JStr "credits must be a non-negative number")], db)
      else
        match user_update_credits userId n db with
        | Ok (user, db') =>
            (json 200 [("message", JStr "User credits updated successfully");
                       ("user", JObj [("id", JId user.(User.id));
                                      ("username", JStr user.(User.username));
                                      ("credits", JNum user.(User.credits))])], db')
        | Throw error =>
            if includes (error_message error) "Record to update does not exist" then
              (json 404 [("error", JStr "User not found")], db)
            else
              (json 500 [("error", JStr "Internal server error");
                         ("message", JStr (error_message error))], db)
        end
  | _ => (json 400 [("error", JStr "credits must be a non-negative number")], db)
  end.

(** GET /get-credit-balance after [authenticateApiKey] *)
Definition get_credit_balance (user : User.t) (db : DB) : Response :=
  match db.(users) !! user.(User.id) with
  | None => json 404 [("error", JStr "User not found")]
  | Some currentUser =>
      json 200 [("username", JStr currentUser.(User.username));
                ("credits", JNum currentUser.(User.credits))]
  end.

(** ** Well-formed databases

    The primary keys: a row of a keyed table sits under its own id, rule
    ids are distinct and below the id counter; and the unique index on
    rule patterns. *)
Definition users_keyed (db : DB) : Prop :=
  forall k u, db.(users) !! k = Some u -> u.(User.id) = k.

Definition keys_keyed (db : DB) : Prop :=
  forall k r, db.(apiKeys) !! k = Some r -> r.(ApiKey.key) = k.

Definition rules_wf (db : DB) : Prop :=
  NoDup (RegexRule.pattern <$> db.(regexRules)) /\
  NoDup (RegexRule.id <$> db.(regexRules)) /\
  forall r, r ∈ db.(regexRules) -> (r.(RegexRule.id) < db.(next_id))%nat.


(** Balances are never negative; and the row a request in flight holds
    in [req.user] is the stored one (with at least 10 credits once the
    credit check is passed). *)
Definition balances_nonneg (db : DB) : Prop :=
  forall k u, db.(users) !! k = Some u -> (0 <= u.(User.credits))%Z.

Definition snapshot_fresh (t : InFlight) (db : DB) : Prop :=
  match t with
  | KeyFound _ user _ | Authenticated user _ =>
      db.(users) !! user.(User.id) = Some user
  | Charging user _ _ =>
      db.(users) !! user.(User.id) = Some user /\ (10 <= user.(User.credits))%Z
  | _ => True
  end.

(** ** More sample data *)

Module Fixtures.

Definition erin : User.t :=
  {| User.id := 13; User.username := "erin"; User.role := admin; User.credits := 100 |}.

Definition bob_key : ApiKey.t :=
  {| ApiKey.id := 14; ApiKey.key := "sk_bob"; ApiKey.userId := 2; ApiKey.lastUsed := None |}.

Definition erin_key : ApiKey.t :=
  {| ApiKey.id := 15; ApiKey.key := "sk_erin"; ApiKey.userId := 13;
     ApiKey.lastUsed := None |}.

(** [Sample.db0] with an administrator and keys for Bob and Erin, and a
    second pending request of the same text as request 7. *)
Definition db2 : DB :=
  {| users := <[13%nat := erin]> Sample.db0.(users);
     apiKeys := <["sk_bob" := bob_key]> (<["sk_erin" := erin_key]> Sample.db0.(apiKeys));
     regexRules := Sample.db0.(regexRules);
     approvalRequests :=
       <[16%nat := Sample.make_request 16 "make test" pending]>
         (<[17%nat := Sample.make_request 17 "make all" pending]>
            Sample.db0.(approvalRequests));
     auditTrail := [];
     next_id := 20 |}.

End Fixtures.

(** * Properties *)

(** ** Escaped command texts as patterns *)

Section Escaping.

Import JsRegExp.

Lemma escaped_char_token c :
  is_escaped_char c = true -> escape_token c = Some (TLit c).
Proof.
  destruct c as [[] [] [] [] [] [] [] []]; vm_compute; congruence.
Qed.

Lemma unescaped_char_token c :
  is_escaped_char c = false ->
  Ascii.eqb c backslash = false /\ plain_token c = Some (TLit c).
Proof.
  destruct c as [[] [] [] [] [] [] [] []]; vm_compute; intuition congruence.
Qed.

(** The tokens of an escaped text are the characters of the text, each
    as a literal. *)
Lemma tokenize_escapedCommand text rest ts :
  tokenize rest = Some ts ->
  tokenize (escapedCommand text +:+ rest)
  = Some (map TLit (list_ascii_of_string text) ++ ts).
Proof.
  intros Hrest. induction text as [|c text IH]; simpl; [done|].
  destruct (is_escaped_char c) eqn:Hc; simpl.
  - rewrite (escaped_char_token c Hc).
    change (Ascii.eqb backslash backslash) with true; simpl.
    by rewrite IH.
  - destruct (unescaped_char_token c Hc) as [-> ->]. by rewrite IH.
Qed.


Lemma parse_alt_S n ts :
  parse_alt (S n) ts =
  match ts with
  | [] | TBar :: _ | TClose :: _ => Some (Empty, ts)
  | _ =>
      match parse_term n ts with
      | Some (r1, ts') =>
          match parse_alt n ts' with
          | Some (r2, ts'') => Some (Seq r1 r2, ts'')
          | None => None
          end
      | None => None
      end
  end.
Proof. reflexivity. Qed.

Lemma parse_quant_literal r cs :
  parse_quant r (map TLit cs ++ [TEol]) = (r, map TLit cs ++ [TEol]).
Proof. by destruct cs. Qed.

Lemma parse_alt_literals cs n :
  (length cs + 2 <= n)%nat ->
  parse_alt n (map TLit cs ++ [TEol]) = Some (lit_seq cs (Seq Eol Empty), []).
Proof.
  revert n. induction cs as [|c cs IH]; intros n Hn.
  - destruct n as [|[|n]]; simpl in Hn; try lia. reflexivity.
  - destruct n as [|[|n]]; simpl in Hn; try lia.
    rewrite parse_alt_S. cbn [map app].
    change (parse_term (S n) (TLit c :: map TLit cs ++ [TEol]))
      with (Some (parse_quant (Chr c) (map TLit cs ++ [TEol]))).
    rewrite parse_quant_literal, IH by lia. reflexivity.
Qed.

Lemma compile_approval_pattern text :
  compile (approval_pattern text)
  = Some (Seq Bol (lit_seq (list_ascii_of_string text) (Seq Eol Empty))).
Proof.
  unfold compile, approval_pattern.
  assert (Htok : tokenize ("^" +:+ escapedCommand text +:+ "$")
                 = Some (TBol :: map TLit (list_ascii_of_string text) ++ [TEol])).
  { change ("^" +:+ escapedCommand text +:+ "$")
      with (String "^" (escapedCommand text +:+ "$")).
    cbn [tokenize]. change (Ascii.eqb "^" backslash) with false. cbv iota.
    change (plain_token "^") with (Some TBol).
    by rewrite (tokenize_escapedCommand text "$" [TEol]). }
  rewrite Htok. unfold parse_fuel.
  set (cs := list_ascii_of_string text).
  set (ts := map TLit cs ++ [TEol]).
  assert (Hlen : length (TBol :: ts) = S (length cs + 1)).
  { unfold ts. cbn [length]. rewrite length_app, length_map. reflexivity. }
  rewrite Hlen.
  replace (3 * S (length cs + 1) + 3)%nat with (S (S (S (length cs + 2 + (2 * length cs + 4))))) by lia.
  cbn [parse_disj]. rewrite parse_alt_S.
  change (parse_term (S (length cs + 2 + (2 * length cs + 4))) (TBol :: ts))
    with (Some (Bol, ts)).
  unfold ts. rewrite parse_alt_literals by lia. reflexivity.
Qed.

Lemma rmatch_lit_seq cs tail i s k :
  rmatch (lit_seq cs tail) i s k = true <->
  exists s', s = cs ++ s' /\ rmatch tail (i + length cs) s' k = true.
Proof.
  revert i s. induction cs as [|c cs IH]; intros i s; simpl.
  - rewrite Nat.add_0_r. split; [eauto|]. by intros (s' & -> & H).
  - destruct s as [|x s].
    + split; [done|]. by intros (s' & ? & _).
    + destruct (Ascii.eqb_spec x c) as [->|Hne].
      * rewrite IH. replace (i + S (length cs))%nat with (S i + length cs)%nat by lia.
        split; intros (s' & Hs & H); exists s'; split; congruence.
      * split; [done|]. intros (s' & Hs & _). congruence.
Qed.

(** The pattern [^escaped$] is a valid pattern and tests true on the
    escaped text and on nothing else. *)
Lemma approval_pattern_exact text :
  exists regex,
    compile (approval_pattern text) = Some regex /\
    forall t, test regex t = true <-> t = text.
Proof.
  eexists; split; [apply compile_approval_pattern|].
  intros t. unfold test. rewrite existsb_exists. split.
  - intros (i & _ & Hm). cbn [rmatch] in Hm.
    destruct (Nat.eqb i 0) eqn:Hi; [|done].
    apply Nat.eqb_eq in Hi. subst i.
    apply rmatch_lit_seq in Hm as (s' & Hs & Hm). rewrite drop_0 in Hs.
    cbn [rmatch] in Hm. destruct s'; [|done]. rewrite app_nil_r in Hs.
    rewrite <- (string_of_list_ascii_of_string t), Hs.
    apply string_of_list_ascii_of_string.
  - intros ->. exists 0%nat. split; [apply in_seq; lia|].
    cbn [rmatch Nat.eqb]. apply rmatch_lit_seq. exists []. rewrite drop_0, app_nil_r.
    done.
Qed.

End Escaping.

(** ** The approval workflow *)

Section Approval.

Implicit Types (db : DB) (request : ApprovalRequest.t) (approverUser : User.t).


(** The four ways [approve] ends. *)
Lemma approve_not_found requestId approverUser now db :
  db.(approvalRequests) !! requestId = None ->
  approve requestId approverUser now db
  = (json 404 [("error", JStr "Approval request not found")], db).
Proof. intros H. unfold approve. by rewrite H. Qed.

Lemma approve_terminal requestId approverUser now db request :
  db.(approvalRequests) !! requestId = Some request ->
  request.(ApprovalRequest.status) <> pending ->
  approve requestId approverUser now db = (already request, db).
Proof.
  intros H Hst. unfold approve. rewrite H.
  by rewrite bool_decide_eq_false_2.
Qed.

Lemma approve_pending_duplicate requestId approverUser now db request :
  db.(approvalRequests) !! requestId = Some request ->
  request.(ApprovalRequest.status) = pending ->
  is_Some (regexRule_findUnique
             (approval_pattern request.(ApprovalRequest.commandText)) db) ->
  approve requestId approverUser now db = (rule_exists, db).
Proof.
  intros H Hst [existing Hex]. unfold approve. rewrite H.
  rewrite bool_decide_eq_true_2 by done. cbn [negb].
  unfold transaction, approvalRequest_update. rewrite H.
  unfold regexRule_create. unfold regexRule_findUnique in *. cbn [regexRules set_approvalRequests].
  by rewrite Hex.
Qed.

Lemma approve_pending_fresh requestId approverUser now db request :
  db.(approvalRequests) !! requestId = Some request ->
  request.(ApprovalRequest.status) = pending ->
  regexRule_findUnique (approval_pattern request.(ApprovalRequest.commandText)) db = None ->
  approve requestId approverUser now db
  = (json 200
       [("message", JStr "Approval request approved and regex rule created");
        ("request", json_of_request (reviewed request approved now approverUser));
        ("rule", JObj [("id", JId db.(next_id));
                       ("pattern",
                        JStr (approval_pattern request.(ApprovalRequest.commandText)));
                       ("action", JStr "AUTO_ACCEPT")])],
     {| users := db.(users); apiKeys := db.(apiKeys);
        regexRules := db.(regexRules) ++ [approved_rule request now db.(next_id)];
        approvalRequests :=
          <[requestId := reviewed request approved now approverUser]> db.(approvalRequests);
        auditTrail := db.(auditTrail);
        next_id := S db.(next_id) |}).
Proof.
  intros H Hst Hfresh. unfold approve. rewrite H.
  rewrite bool_decide_eq_true_2 by done. cbn [negb].
  unfold transaction, approvalRequest_update. rewrite H.
  unfold regexRule_create. unfold regexRule_findUnique in *. cbn [regexRules set_approvalRequests].
  by rewrite Hfresh.
Qed.

(** Case analysis on a call of [approve]. *)
Lemma approve_cases requestId approverUser now db :
  (db.(approvalRequests) !! requestId = None /\
   approve requestId approverUser now db
   = (json 404 [("error", JStr "Approval request not found")], db))
  \/ (exists request,
       db.(approvalRequests) !! requestId = Some request /\
       request.(ApprovalRequest.status) <> pending /\
       approve requestId approverUser now db = (already request, db))
  \/ (exists request,
       db.(approvalRequests) !! requestId = Some request /\
       request.(ApprovalRequest.status) = pending /\
       is_Some (regexRule_findUnique
                  (approval_pattern request.(ApprovalRequest.commandText)) db) /\
       approve requestId approverUser now db = (rule_exists, db))
  \/ (exists request,
       db.(approvalRequests) !! requestId = Some request /\
       request.(ApprovalRequest.status) = pending /\
       regexRule_findUnique
         (approval_pattern request.(ApprovalRequest.commandText)) db = None /\
       (approve requestId approverUser now db).1.(status_code) = 200%nat /\
       (approve requestId approverUser now db).2 =
         {| users := db.(users); apiKeys := db.(apiKeys);
            regexRules := db.(regexRules) ++ [approved_rule request now db.(next_id)];
            approvalRequests :=
              <[requestId := reviewed request approved now approverUser]>
                db.(approvalRequests);
            auditTrail := db.(auditTrail);
            next_id := S db.(next_id) |}).
Proof.
  destruct (db.(approvalRequests) !! requestId) as [request|] eqn:H.
  - right. destruct (decide (request.(ApprovalRequest.status) = pending)) as [Hst|Hst].
    + right.
      destruct (regexRule_findUnique
                  (approval_pattern request.(ApprovalRequest.commandText)) db)
        as [existing|] eqn:Hex.
      * left. exists request. split_and!; try done.
        apply approve_pending_duplicate with request; eauto.
      * right. exists request.
        rewrite (approve_pending_fresh _ _ _ _ request) by done. done.
    + left. exists request. split_and!; try done. by apply approve_terminal.
  - left. split; [done|]. by apply approve_not_found.
Qed.

Lemma append_empty_r (s : string) : s +:+ "" = s.
Proof.
  induction s as [|c s IH]; [done|].
  change (String c s +:+ "") with (String c (s +:+ "")). by rewrite IH.
Qed.

Lemma findUnique_present pattern db existing :
  existing ∈ db.(regexRules) ->
  existing.(RegexRule.pattern) = pattern ->
  is_Some (regexRule_findUnique pattern db).
Proof.
  intros Hin Hp. unfold regexRule_findUnique.
  destruct (List.find _ _) eqn:Hfind; [eauto|].
  apply list_elem_of_In in Hin.
  apply (find_none _ _ Hfind) in Hin. simpl in Hin.
  rewrite Hp, String.eqb_refl in Hin. done.
Qed.

(** No call of [approve] changes the vote count of the request. *)
Lemma approve_keeps_count requestId approverUser now db :
  ApprovalRequest.approvalCount <$> (approve requestId approverUser now db).2.(approvalRequests) !! requestId
  = ApprovalRequest.approvalCount <$> db.(approvalRequests) !! requestId.
Proof.
  destruct (approve_cases requestId approverUser now db)
    as [[_ ->]|[(r & _ & _ & ->)|[(r & _ & _ & _ & ->)|(r & Hr & _ & _ & _ & ->)]]];
    try done.
  cbn [approvalRequests]. by rewrite lookup_insert_eq, Hr.
Qed.

(** C1 (as the code has it).  One approve call on a pending request
    that has no vote yet: the request is approved at once and the rule
    is created; the vote count stays 0 and the response carries neither
    a count nor a threshold. *)
Theorem first_approval_approves_at_once :
  approvalRequests Sample.db0 !! 7%nat
  = Some (Sample.make_request 7 "make test" pending) /\
  (approve 7 Sample.bob 3000 Sample.db0).1.(status_code) = 200%nat /\
  field "approvalCount" (approve 7 Sample.bob 3000 Sample.db0).1.(body) = None /\
  field "threshold" (approve 7 Sample.bob 3000 Sample.db0).1.(body) = None /\
  (approve 7 Sample.bob 3000 Sample.db0).2.(approvalRequests) !! 7%nat
  = Some {| ApprovalRequest.id := 7; ApprovalRequest.userId := 1;
            ApprovalRequest.commandText := "make test";
            ApprovalRequest.status := approved;
            ApprovalRequest.approvalCount := 0;
            ApprovalRequest.createdAt := 2000;
            ApprovalRequest.reviewedAt := Some 3000%Z;
            ApprovalRequest.reviewedBy := Some 2%nat |} /\
  (approve 7 Sample.bob 3000 Sample.db0).2.(regexRules)
  = Sample.db0.(regexRules) ++
    [{| RegexRule.id := 9; RegexRule.pattern := "^make test$";
        RegexRule.action := AUTO_ACCEPT;
        RegexRule.exampleMatch := Some "make test"%string;
        RegexRule.createdAt := 3000 |}].
Proof. split_and!; vm_compute; reflexivity. Qed.

(** C2 (as the code has it).  Request 7 is pending and has no vote.
    Bob approves it and approves it again.  The handler keeps no vote:
    the first call approves the request at once, with the count still
    0 and Bob recorded only as its reviewer, so the second call is
    stopped by the status test and answered 400 [Request is already
    approved], not 409; no duplicate vote is ever detected, and carol's
    call, which is no duplicate, is answered the same. *)
Theorem second_approve_is_not_conflict :
  approvalRequests Sample.db0 !! 7%nat
  = Some (Sample.make_request 7 "make test" pending) /\
  (approve 7 Sample.bob 3000 Sample.db0).1.(status_code) = 200%nat /\
  (ApprovalRequest.status <$>
     (approve 7 Sample.bob 3000 Sample.db0).2.(approvalRequests) !! 7%nat)
  = Some approved /\
  (ApprovalRequest.approvalCount <$>
     (approve 7 Sample.bob 3000 Sample.db0).2.(approvalRequests) !! 7%nat)
  = Some 0%Z /\
  approve 7 Sample.bob 3001 (approve 7 Sample.bob 3000 Sample.db0).2
  = (json 400 [("error", JStr "Request is already approved")],
     (approve 7 Sample.bob 3000 Sample.db0).2) /\
  (approve 7 Sample.bob 3001 (approve 7 Sample.bob 3000 Sample.db0).2).1.(status_code)
  <> 409%nat /\
  approve 7 Sample.carol 3001 (approve 7 Sample.bob 3000 Sample.db0).2
  = approve 7 Sample.bob 3001 (approve 7 Sample.bob 3000 Sample.db0).2.
Proof. split_and!; vm_compute; (reflexivity || discriminate). Qed.

(** No request is approved twice.  A further approve call on the same
    request, by the same approver or by another, never succeeds and
    leaves the database, the vote count of the request included, as the
    first call left it; after a successful first call it is answered
    400 [Request is already approved]. *)
Lemma approve_again_fails requestId approverUser approverUser' now now' db :
  let first := approve requestId approverUser now db in
  let second := approve requestId approverUser' now' first.2 in
  second.2 = first.2 /\
  second.1.(status_code) <> 200%nat /\
  (ApprovalRequest.approvalCount <$> second.2.(approvalRequests) !! requestId
   = ApprovalRequest.approvalCount <$> db.(approvalRequests) !! requestId) /\
  (first.1.(status_code) = 200%nat ->
   second.1 = json 400 [("error", JStr "Request is already approved")]).
Proof.
  intros first second.
  assert (Hmain : second.2 = first.2 /\ second.1.(status_code) <> 200%nat /\
                  (first.1.(status_code) = 200%nat ->
                   second.1 = json 400 [("error", JStr "Request is already approved")])).
  { subst first second.
    destruct (approve_cases requestId approverUser now db)
      as [[Hr E]|[(r & Hr & Hst & E)|[(r & Hr & Hst & Hex & E)|(r & Hr & Hst & Hex & Hc & E)]]].
    - rewrite E. cbn [fst snd]. rewrite approve_not_found by done. done.
    - rewrite E. cbn [fst snd]. rewrite (approve_terminal _ _ _ _ r) by done. done.
    - rewrite E. cbn [fst snd].
      rewrite (approve_pending_duplicate _ _ _ _ r) by done. done.
    - rewrite E.
      rewrite (approve_terminal _ _ _ _ (reviewed r approved now approverUser)).
      + done.
      + cbn [approvalRequests]. apply lookup_insert_eq.
      + done. }
  destruct Hmain as (H1 & H2 & H3). split_and!; try done.
  rewrite H1. apply approve_keeps_count.
Qed.

(** C3 (counterexample).  Request 8 is approved; approve and reject on
    it answer 400, not 409. *)
Lemma terminal_request_is_not_conflict :
  (ApprovalRequest.status <$> approvalRequests Sample.db0 !! 8%nat) = Some approved /\
  (approve 8 Sample.bob 3000 Sample.db0).1.(status_code) = 400%nat /\
  (reject 8 Sample.bob 3000 Sample.db0).1.(status_code) = 400%nat /\
  (approve 8 Sample.bob 3000 Sample.db0).1.(status_code) <> 409%nat /\
  (reject 8 Sample.bob 3000 Sample.db0).1.(status_code) <> 409%nat.
Proof. split_and!; vm_compute; (reflexivity || discriminate). Qed.

(** C3 (amended).  On a request that is approved or rejected, approve
    and reject both answer 400 with the message [Request is already
    <status>], and the database is left unchanged. *)
Theorem terminal_request_rejected requestId approverUser now db request :
  db.(approvalRequests) !! requestId = Some request ->
  request.(ApprovalRequest.status) <> pending ->
  approve requestId approverUser now db
  = (json 400 [("error", JStr ("Request is already " +:+
                               status_text request.(ApprovalRequest.status)))], db) /\
  reject requestId approverUser now db
  = (json 400 [("error", JStr ("Request is already " +:+
                               status_text request.(ApprovalRequest.status)))], db).
Proof.
  intros H Hst. split.
  - by apply approve_terminal.
  - unfold reject. rewrite H. by rewrite bool_decide_eq_false_2.
Qed.

Lemma terminal_request_rejected_witness :
  approvalRequests Sample.db0 !! 8%nat
  = Some (Sample.make_request 8 "make clean" approved) /\
  approve 8 Sample.bob 3000 Sample.db0
  = (json 400 [("error", JStr "Request is already approved")], Sample.db0) /\
  reject 8 Sample.bob 3000 Sample.db0
  = (json 400 [("error", JStr "Request is already approved")], Sample.db0).
Proof.
  split; [reflexivity|].
  apply (terminal_request_rejected 8 Sample.bob 3000 Sample.db0
           (Sample.make_request 8 "make clean" approved)).
  - reflexivity.
  - discriminate.
Defined.

(** C7.  Whenever approve succeeds, the database gains exactly one
    rule; its action is AUTO_ACCEPT, its pattern is the command text of
    the request with every special character escaped, between [^] and
    [$]; every character of the escaped text reads as a literal; the
    pattern compiles, and the compiled pattern tests true on a text if
    and only if the text is the command text. *)
Theorem approve_rule_matches_exactly requestId approverUser now db :
  (approve requestId approverUser now db).1.(status_code) = 200%nat ->
  exists request rule regex,
    db.(approvalRequests) !! requestId = Some request /\
    (approve requestId approverUser now db).2.(regexRules) = db.(regexRules) ++ [rule] /\
    rule.(RegexRule.action) = AUTO_ACCEPT /\
    rule.(RegexRule.pattern)
    = "^" +:+ escapedCommand request.(ApprovalRequest.commandText) +:+ "$" /\
    JsRegExp.tokenize (escapedCommand request.(ApprovalRequest.commandText))
    = Some (JsRegExp.TLit <$> list_ascii_of_string request.(ApprovalRequest.commandText)) /\
    newRegExp (RegExpEngine := js_engine) rule.(RegexRule.pattern) = Some regex /\
    forall t, regexp_test (RegExpEngine := js_engine) regex t = true
              <-> t = request.(ApprovalRequest.commandText).
Proof.
  intros Hok.
  destruct (approve_cases requestId approverUser now db)
    as [[Hr E]|[(r & Hr & Hst & E)|[(r & Hr & Hst & Hex & E)|(r & Hr & Hst & Hex & Hc & E)]]];
    try (rewrite E in Hok; discriminate Hok).
  destruct (approval_pattern_exact r.(ApprovalRequest.commandText)) as (regex & Hcomp & Htest).
  exists r, (approved_rule r now db.(next_id)), regex.
  split_and!; try done.
  - by rewrite E.
  - pose proof (tokenize_escapedCommand r.(ApprovalRequest.commandText) "" [] eq_refl) as Ht.
    rewrite app_nil_r in Ht.
    replace (escapedCommand r.(ApprovalRequest.commandText))
      with (escapedCommand r.(ApprovalRequest.commandText) +:+ ""); [exact Ht|].
    apply append_empty_r.
Qed.

Lemma approve_rule_matches_exactly_witness :
  (approve 7 Sample.bob 3000 Sample.db0).1.(status_code) = 200%nat /\
  exists request rule regex,
    Sample.db0.(approvalRequests) !! 7%nat = Some request /\
    (approve 7 Sample.bob 3000 Sample.db0).2.(regexRules)
    = Sample.db0.(regexRules) ++ [rule] /\
    rule.(RegexRule.action) = AUTO_ACCEPT /\
    rule.(RegexRule.pattern)
    = "^" +:+ escapedCommand request.(ApprovalRequest.commandText) +:+ "$" /\
    JsRegExp.tokenize (escapedCommand request.(ApprovalRequest.commandText))
    = Some (JsRegExp.TLit <$> list_ascii_of_string request.(ApprovalRequest.commandText)) /\
    newRegExp (RegExpEngine := js_engine) rule.(RegexRule.pattern) = Some regex /\
    forall t, regexp_test (RegExpEngine := js_engine) regex t = true
              <-> t = request.(ApprovalRequest.commandText).
Proof.
  split; [reflexivity|].
  apply (approve_rule_matches_exactly 7 Sample.bob 3000 Sample.db0). reflexivity.
Defined.

(** C10.  A pending request whose escaped pattern is the pattern of a
    rule already in the rule set: approve answers 409; the status
    update, which on its own would have gone through, is rolled back
    with the failed rule creation: the database is unchanged, so the
    request is still pending and the rule set is as it was. *)
Theorem approve_existing_pattern_conflict requestId approverUser now db request existing :
  db.(approvalRequests) !! requestId = Some request ->
  request.(ApprovalRequest.status) = pending ->
  existing ∈ db.(regexRules) ->
  existing.(RegexRule.pattern) = approval_pattern request.(ApprovalRequest.commandText) ->
  approve requestId approverUser now db
  = (json 409 [("error", JStr "A regex rule for this command already exists")], db) /\
  (exists updated db1,
      approvalRequest_update requestId approved now approverUser.(User.id) db
      = Ok (updated, db1) /\
      (ApprovalRequest.status <$> db1.(approvalRequests) !! requestId) = Some approved) /\
  transaction
    (approvalRequest_update requestId approved now approverUser.(User.id))
    (regexRule_create (approval_pattern request.(ApprovalRequest.commandText)) AUTO_ACCEPT
       (Some request.(ApprovalRequest.commandText)) now) db
  = Throw (UniqueConstraintFailed "pattern").
Proof.
  intros H Hst Hin Hp.
  pose proof (findUnique_present _ db existing Hin Hp) as Hex.
  split_and!.
  - by apply approve_pending_duplicate with request.
  - unfold approvalRequest_update. rewrite H. do 2 eexists. split; [reflexivity|].
    cbn [approvalRequests set_approvalRequests]. by rewrite lookup_insert_eq.
  - unfold transaction, approvalRequest_update. rewrite H.
    unfold regexRule_create. destruct Hex as [e He].
    unfold regexRule_findUnique in *. cbn [regexRules set_approvalRequests].
    by rewrite He.
Qed.

(** Request 7 asks for [make test] while a rule [^make test$] is
    already in the rule set. *)
Lemma approve_existing_pattern_conflict_witness :
  Sample.db1.(approvalRequests) !! 7%nat
  = Some (Sample.make_request 7 "make test" pending) /\
  Sample.make_rule ∈ Sample.db1.(regexRules) /\
  approve 7 Sample.bob 3000 Sample.db1
  = (json 409 [("error", JStr "A regex rule for this command already exists")],
     Sample.db1).
Proof.
  assert (Hin : Sample.make_rule ∈ Sample.db1.(regexRules))
    by (apply list_elem_of_further, list_elem_of_further, list_elem_of_here).
  split; [reflexivity|]. split; [exact Hin|].
  apply (approve_existing_pattern_conflict 7 Sample.bob 3000 Sample.db1
           (Sample.make_request 7 "make test" pending) Sample.make_rule).
  - reflexivity.
  - reflexivity.
  - exact Hin.
  - reflexivity.
Defined.

End Approval.

(** ** Rule matching, the credit check and rule creation *)

#[export] Instance createdAt_asc_total : Total createdAt_asc.
Proof. intros a b. unfold createdAt_asc. lia. Qed.

#[export] Instance createdAt_asc_trans : Transitive createdAt_asc.
Proof. intros a b c. unfold createdAt_asc. lia. Qed.

#[export] Instance audit_desc_total : Total audit_desc.
Proof. intros a b. unfold audit_desc. lia. Qed.

#[export] Instance audit_desc_trans : Transitive audit_desc.
Proof. intros a b c. unfold audit_desc. lia. Qed.

Section Matching.

Context {engine : RegExpEngine}.

Lemma matchedRule_skip rule rest text :
  ~ rule_matches rule text ->
  matchedRule (rule :: rest) text = matchedRule rest text.
Proof.
  intros Hno. cbn [matchedRule].
  destruct (newRegExp rule.(RegexRule.pattern)) as [regex|] eqn:Hc; [|done].
  destruct (regexp_test regex text) eqn:Ht; [|done].
  exfalso. apply Hno. by exists regex.
Qed.

Lemma matchedRule_hit rule rest text :
  rule_matches rule text -> matchedRule (rule :: rest) text = Some rule.
Proof.
  intros (regex & Hc & Ht). cbn [matchedRule]. by rewrite Hc, Ht.
Qed.

Lemma rule_matches_dec rule text : rule_matches rule text \/ ~ rule_matches rule text.
Proof.
  unfold rule_matches.
  destruct (newRegExp rule.(RegexRule.pattern)) as [regex|] eqn:Hc.
  - destruct (regexp_test regex text) eqn:Ht; [left; eauto|].
    right. intros (regex' & Hc' & Ht'). congruence.
  - right. by intros (regex' & Hc' & _).
Qed.

(** The scan returns the first rule of the list that matches. *)
Lemma matchedRule_first rules text :
  match matchedRule rules text with
  | Some rule =>
      exists before after,
        rules = before ++ rule :: after /\
        rule_matches rule text /\
        forall r, r ∈ before -> ~ rule_matches r text
  | None => forall r, r ∈ rules -> ~ rule_matches r text
  end.
Proof.
  induction rules as [|rule rest IH].
  - cbn. intros r Hr. by apply elem_of_nil in Hr.
  - destruct (rule_matches_dec rule text) as [Hyes|Hno].
    + rewrite matchedRule_hit by done.
      exists [], rest. split_and!; [done..|]. intros r Hr. by apply elem_of_nil in Hr.
    + rewrite matchedRule_skip by done.
      destruct (matchedRule rest text) as [found|].
      * destruct IH as (before & after & -> & Hm & Hbefore).
        exists (rule :: before), after. split_and!; [done..|].
        intros r [->|Hr]%elem_of_cons; auto.
      * intros r [->|Hr]%elem_of_cons; auto.
Qed.

(** Whatever order the store gives to rules created at the same
    time: over any scan sorted by ascending creation time, the rule
    found is a matching rule of earliest creation time. *)
Lemma matchedRule_earliest scan text :
  StronglySorted createdAt_asc scan ->
  match matchedRule scan text with
  | Some rule =>
      rule ∈ scan /\
      rule_matches rule text /\
      forall r, r ∈ scan -> rule_matches r text ->
                (rule.(RegexRule.createdAt) <= r.(RegexRule.createdAt))%Z
  | None => forall r, r ∈ scan -> ~ rule_matches r text
  end.
Proof.
  intros Hsorted.
  pose proof (matchedRule_first scan text) as Hscan.
  destruct (matchedRule scan text) as [rule|]; [|done].
  destruct Hscan as (before & after & -> & Hm & Hbefore).
  split_and!; [set_solver|done|].
  intros r Hr Hrm.
  apply elem_of_app in Hr as [Hr|Hr]; [by apply Hbefore in Hr|].
  apply elem_of_cons in Hr as [->|Hr]; [done|].
  apply StronglySorted_app_1_r, StronglySorted_inv in Hsorted as [_ Hall].
  rewrite Forall_forall in Hall. by apply Hall.
Qed.

(** C4.  [evaluate] is a function of the rule set and the command
    text.  Its scan order is the rule set sorted by ascending creation
    time; a rule whose pattern does not compile is passed over and the
    scan goes on; the result is the first rule of the scan that matches,
    which is a matching rule of earliest creation time, and it is none
    exactly when no rule of the set matches. *)
Theorem evaluate_first_match db text :
  StronglySorted createdAt_asc (regexRule_findMany_asc db) /\
  regexRule_findMany_asc db ≡ₚ db.(regexRules) /\
  (forall rule rest,
      newRegExp rule.(RegexRule.pattern) = None ->
      matchedRule (rule :: rest) text = matchedRule rest text) /\
  match evaluate db text with
  | Some rule =>
      rule ∈ db.(regexRules) /\
      rule_matches rule text /\
      (exists before after,
          regexRule_findMany_asc db = before ++ rule :: after /\
          forall r, r ∈ before -> ~ rule_matches r text) /\
      (forall r, r ∈ db.(regexRules) -> rule_matches r text ->
                 (rule.(RegexRule.createdAt) <= r.(RegexRule.createdAt))%Z)
  | None => forall r, r ∈ db.(regexRules) -> ~ rule_matches r text
  end.
Proof.
  pose proof (StronglySorted_merge_sort createdAt_asc db.(regexRules)) as Hsorted.
  pose proof (merge_sort_Permutation createdAt_asc db.(regexRules)) as Hperm.
  fold (regexRule_findMany_asc db) in Hsorted, Hperm.
  split_and!; [done..| |].
  - intros rule rest Hc. cbn [matchedRule]. by rewrite Hc.
  - unfold evaluate.
    pose proof (matchedRule_first (regexRule_findMany_asc db) text) as Hscan.
    pose proof (matchedRule_earliest (regexRule_findMany_asc db) text Hsorted) as Hearly.
    destruct (matchedRule (regexRule_findMany_asc db) text) as [rule|].
    + destruct Hscan as (before & after & Heq & _ & Hbefore).
      destruct Hearly as (Hin & Hm & Hmin).
      split_and!; [by rewrite <- Hperm|done|by eauto|].
      intros r Hr. apply Hmin. by rewrite Hperm.
    + intros r Hr. apply Hearly. by rewrite Hperm.
Qed.

(** C5.  A user whose balance is below 10 submits a command that
    matches an AUTO_ACCEPT rule: the answer is 403 [Insufficient
    credits] with the balance as it was, and the database is unchanged,
    so no credit is taken and no audit entry is written. *)
Theorem insufficient_credits_rejected user text rule now db :
  text <> ""%string ->
  evaluate db text = Some rule ->
  rule.(RegexRule.action) = AUTO_ACCEPT ->
  (user.(User.credits) < 10)%Z ->
  command user (JStr text) now db
  = (json 403
       [("error", JStr "Insufficient credits");
        ("message",
         JStr ("You need at least 10 credits to submit a command. Your current balance: "
               +:+ pretty user.(User.credits)));
        ("current_balance", JNum user.(User.credits))],
     db).
Proof.
  intros Htext Hrule Hact Hlow. unfold command, command_check. cbn [truthy].
  apply String.eqb_neq in Htext. rewrite Htext. cbn [negb].
  rewrite Hrule, Hact, bool_decide_eq_false_2 by done.
  apply Z.ltb_lt in Hlow. by rewrite Hlow.
Qed.

(** Whatever the request body, a user whose balance in [req.user] is
    below 10 is not charged. *)
Lemma low_balance_never_charged user command_text now db :
  (user.(User.credits) < 10)%Z ->
  (command user command_text now db).1.(status_code) <> 200%nat /\
  (command user command_text now db).2 = db.
Proof.
  intros Hlow%Z.ltb_lt. unfold command, command_check.
  destruct command_text as [| | |text| |]; try done.
  destruct (negb (truthy (JStr text))); [done|].
  destruct (evaluate db text) as [rule|]; [|done].
  destruct (bool_decide _); [done|]. by rewrite Hlow.
Qed.

(** C6 (amended).  For a well-formed request (a non-empty pattern and
    one of the two actions): a pattern that does not compile is answered
    400 [Invalid regex pattern], also when it is the pattern of a rule
    of the set; a pattern that compiles and is the pattern of a rule of
    the set, whatever the two actions, is answered 409 [Pattern already
    exists]; in both cases the database is unchanged. *)
Theorem add_regex_rule_rejects pattern action exampleMatch now db :
  pattern <> ""%string ->
  action = "AUTO_REJECT"%string \/ action = "AUTO_ACCEPT"%string ->
  (isValidRegex pattern = false ->
   add_regex_rule (JStr pattern) (JStr action) exampleMatch now db
   = (json 400 [("error", JStr "Invalid regex pattern");
                ("message", JStr "The provided pattern is not a valid regular expression")],
      db)) /\
  (isValidRegex pattern = true ->
   (exists existing, existing ∈ db.(regexRules) /\ existing.(RegexRule.pattern) = pattern) ->
   add_regex_rule (JStr pattern) (JStr action) exampleMatch now db
   = (json 409 [("error", JStr "Pattern already exists");
                ("message", JStr "A rule with this pattern already exists")],
      db)).
Proof.
  intros Hp Ha. apply String.eqb_neq in Hp.
  split.
  - intros Hbad. unfold add_regex_rule. cbn [truthy]. rewrite Hp. cbn [negb].
    destruct Ha as [-> | ->]; cbn; by rewrite Hbad.
  - intros Hgood (existing & Hin & Hpat).
    destruct (findUnique_present pattern db existing Hin Hpat) as [e He].
    unfold add_regex_rule. cbn [truthy]. rewrite Hp. cbn [negb].
    destruct Ha as [-> | ->]; cbn; by rewrite Hgood, He.
Qed.

End Matching.

Lemma insufficient_credits_rejected_witness :
  evaluate (engine := js_engine) Sample.db0 "ls" = Some Sample.ls_rule /\
  (Sample.dave.(User.credits) < 10)%Z /\
  (command (engine := js_engine) Sample.dave (JStr "ls") 3000 Sample.db0).1.(status_code)
  = 403%nat /\
  (command (engine := js_engine) Sample.dave (JStr "ls") 3000 Sample.db0).2 = Sample.db0.
Proof.
  split; [vm_compute; reflexivity|]. split; [reflexivity|].
  rewrite (insufficient_credits_rejected (engine := js_engine)
             Sample.dave "ls" Sample.ls_rule 3000 Sample.db0).
  - split; reflexivity.
  - discriminate.
  - vm_compute; reflexivity.
  - reflexivity.
  - reflexivity.
Defined.

Lemma add_regex_rule_rejects_witness :
  isValidRegex (engine := js_engine) "^(ls|cat|pwd|echo)" = true /\
  Sample.ls_rule ∈ Sample.db0.(regexRules) /\
  add_regex_rule (engine := js_engine)
    (JStr "^(ls|cat|pwd|echo)") (JStr "AUTO_REJECT") JNull 3000 Sample.db0
  = (json 409 [("error", JStr "Pattern already exists");
               ("message", JStr "A rule with this pattern already exists")],
     Sample.db0) /\
  isValidRegex (engine := js_engine) "(" = false /\
  add_regex_rule (engine := js_engine) (JStr "(") (JStr "AUTO_ACCEPT") JNull 3000 Sample.db0
  = (json 400 [("error", JStr "Invalid regex pattern");
               ("message", JStr "The provided pattern is not a valid regular expression")],
     Sample.db0).
Proof.
  assert (Hin : Sample.ls_rule ∈ Sample.db0.(regexRules)) by (apply list_elem_of_here).
  split; [vm_compute; reflexivity|]. split; [exact Hin|]. split.
  - apply (add_regex_rule_rejects (engine := js_engine)
             "^(ls|cat|pwd|echo)" "AUTO_REJECT" JNull 3000 Sample.db0).
    + discriminate.
    + by left.
    + vm_compute; reflexivity.
    + exists Sample.ls_rule. split; [exact Hin | reflexivity].
  - split; [vm_compute; reflexivity|].
    apply (add_regex_rule_rejects (engine := js_engine)
             "(" "AUTO_ACCEPT" JNull 3000 Sample.db0).
    + discriminate.
    + by right.
    + vm_compute; reflexivity.
Defined.

(** C6 (counterexample).  The pattern [(] is the pattern of a rule of
    the set and does not compile: adding it again is answered 400
    [Invalid regex pattern], not 409. *)
Lemma present_pattern_is_not_conflict :
  Sample.broken_rule ∈ Sample.db0.(regexRules) /\
  Sample.broken_rule.(RegexRule.pattern) = "("%string /\
  add_regex_rule (engine := js_engine) (JStr "(") (JStr "AUTO_REJECT") JNull 3000 Sample.db0
  = (json 400 [("error", JStr "Invalid regex pattern");
               ("message", JStr "The provided pattern is not a valid regular expression")],
     Sample.db0) /\
  (add_regex_rule (engine := js_engine)
     (JStr "(") (JStr "AUTO_REJECT") JNull 3000 Sample.db0).1.(status_code) <> 409%nat.
Proof.
  split_and!.
  - apply list_elem_of_further, list_elem_of_here.
  - reflexivity.
  - vm_compute; reflexivity.
  - vm_compute; discriminate.
Qed.

(** ** The audit ledger *)

Section Ledger.

(** The first [n] rows of the table sorted newest first. *)
Lemma newest_first_top n (rows : list AuditTrail.t) :
  let top := take n (merge_sort audit_desc rows) in
  length top = (n `min` length rows)%nat /\
  StronglySorted audit_desc top /\
  (forall a, a ∈ top -> a ∈ rows) /\
  exists older,
    top ++ older ≡ₚ rows /\
    forall a b, a ∈ top -> b ∈ older ->
                (b.(AuditTrail.createdAt) <= a.(AuditTrail.createdAt))%Z.
Proof.
  intros top.
  pose proof (StronglySorted_merge_sort audit_desc rows) as Hsorted.
  pose proof (merge_sort_Permutation audit_desc rows) as Hperm.
  assert (Hsplit : top ++ drop n (merge_sort audit_desc rows) = merge_sort audit_desc rows)
    by apply take_drop.
  split_and!.
  - unfold top. by rewrite length_take, Hperm.
  - rewrite <- Hsplit in Hsorted. by apply StronglySorted_app_1_l in Hsorted.
  - intros a Ha. rewrite <- Hperm, <- Hsplit. set_solver.
  - exists (drop n (merge_sort audit_desc rows)). split.
    + by rewrite Hsplit.
    + intros a b Ha Hb. rewrite <- Hsplit in Hsorted.
      by apply (StronglySorted_app_1_elem_of _ _ _ a b) in Hsorted.
Qed.

(** C9.  The command history of a user is a list of at most 100 of the
    user's audit entries, sorted newest first, and no entry of the user
    that is left out is newer than one that is in; the audit log is a
    list of at most 500 audit entries, sorted newest first, none left
    out being newer than one that is in, each paired with the row of
    the users table under the entry's user id. *)
Theorem audit_queries_newest_first user db :
  (let history := command_history_rows user db in
   let own := List.filter (fun a => Nat.eqb a.(AuditTrail.userId) user.(User.id))
                          db.(auditTrail) in
   (length history <= 100)%nat /\
   length history = (100 `min` length own)%nat /\
   StronglySorted audit_desc history /\
   (forall a, a ∈ history ->
              a ∈ db.(auditTrail) /\ a.(AuditTrail.userId) = user.(User.id)) /\
   (exists older,
       history ++ older ≡ₚ own /\
       forall a b, a ∈ history -> b ∈ older ->
                   (b.(AuditTrail.createdAt) <= a.(AuditTrail.createdAt))%Z) /\
   command_history user db
   = json 200 [("history", JArr ((fun a => JObj (json_of_audit a)) <$> history));
               ("count", JNum (Z.of_nat (length history)))]) /\
  (let logs := audit_logs_rows db in
   (length logs <= 500)%nat /\
   length logs = (500 `min` length db.(auditTrail))%nat /\
   StronglySorted audit_desc logs.*1 /\
   (forall a u, (a, u) ∈ logs ->
                a ∈ db.(auditTrail) /\ u = db.(users) !! a.(AuditTrail.userId)) /\
   (exists older,
       logs.*1 ++ older ≡ₚ db.(auditTrail) /\
       forall a b, a ∈ logs.*1 -> b ∈ older ->
                   (b.(AuditTrail.createdAt) <= a.(AuditTrail.createdAt))%Z) /\
   audit_logs db
   = json 200 [("logs", JArr (json_of_log <$> logs));
               ("count", JNum (Z.of_nat (length logs)))]).
Proof.
  split.
  - intros history own.
    destruct (newest_first_top 100 own) as (Hlen & Hsorted & Hin & Holder).
    change (take 100 (merge_sort audit_desc own)) with history
      in Hlen, Hsorted, Hin, Holder.
    split_and!; try done.
    + rewrite Hlen. lia.
    + intros a Ha. apply Hin in Ha. unfold own in Ha.
      apply list_elem_of_In, filter_In in Ha as [Ha Hid].
      apply list_elem_of_In in Ha. by apply Nat.eqb_eq in Hid.
  - intros logs.
    assert (Hfst : logs.*1 = take 500 (merge_sort audit_desc db.(auditTrail))).
    { unfold logs, audit_logs_rows. rewrite fmap_take, <- list_fmap_compose.
      f_equal. apply list_fmap_id. }
    destruct (newest_first_top 500 db.(auditTrail)) as (Hlen & Hsorted & Hin & Holder).
    rewrite <- Hfst in Hlen, Hsorted, Hin, Holder.
    rewrite length_fmap in Hlen.
    split_and!; try done.
    + rewrite Hlen. lia.
    + intros a u Hau. split.
      * apply Hin. apply list_elem_of_fmap. by exists (a, u).
      * unfold logs, audit_logs_rows in Hau.
        apply elem_of_take in Hau as (i & Hi & _).
        apply list_lookup_fmap_Some in Hi as (a' & Heq & _). by inversion Heq.
Qed.

End Ledger.

(** ** Concurrent charges *)

(** The charge is all or nothing, and the audit row it writes is
    consistent with itself. *)
Lemma command_charge_all_or_nothing `{engine : RegExpEngine}
    (user : User.t) text rule now db :
  (exists u a,
      db.(users) !! user.(User.id) = Some u /\
      (command_charge user text rule now db).1.(status_code) = 200%nat /\
      (User.credits <$> (command_charge user text rule now db).2.(users) !! user.(User.id))
      = Some (u.(User.credits) - 10)%Z /\
      (command_charge user text rule now db).2.(auditTrail) = db.(auditTrail) ++ [a] /\
      a.(AuditTrail.creditsAfter)
      = (a.(AuditTrail.creditsBefore) - a.(AuditTrail.creditsDeducted))%Z)
  \/ ((command_charge user text rule now db).1.(status_code) = 500%nat /\
      (command_charge user text rule now db).2 = db).
Proof.
  unfold command_charge, transaction, user_update_decrement, auditTrail_create.
  destruct (db.(users) !! user.(User.id)) as [u|] eqn:Hu; [|by right].
  destruct (u.(User.credits) - 10 <? int4_min)%Z; [by right|].
  destruct (storable text); cbn [negb]; [|by right].
  left. eexists u, _. cbn. split_and!; try done.
  by rewrite lookup_insert_eq.
Qed.

(** Served one after the other, the second of two charges of 10 on a
    balance of 15 is refused. *)
Lemma sequential_charges_one_succeeds :
  let '(t1, t2, db') :=
    run (engine := js_engine) Sample.one_after_the_other
        Sample.ls_request Sample.ls_request Sample.db0 in
  response_status t1 = Some 200%nat /\
  response_status t2 = Some 403%nat /\
  (User.credits <$> db'.(users) !! 1%nat) = Some 5%Z /\
  length db'.(auditTrail) = 1%nat.
Proof. vm_compute. split_and!; reflexivity. Qed.

(** C8 (as the code has it).  Alice holds 15 credits and two of her
    POST /command requests are in flight; both are authenticated, and so
    both hold a [req.user] with 15 credits, before either is charged.
    Both are answered 200, the balance ends at -5, and each of the two
    audit rows says 15 before and 5 after. *)
Theorem concurrent_charges_overdraw :
  (User.credits <$> Sample.db0.(users) !! 1%nat) = Some 15%Z /\
  let '(t1, t2, db') :=
    run (engine := js_engine) Sample.racing
        Sample.ls_request Sample.ls_request Sample.db0 in
  response_status t1 = Some 200%nat /\
  response_status t2 = Some 200%nat /\
  (User.credits <$> db'.(users) !! 1%nat) = Some (-5)%Z /\
  db'.(auditTrail)
  = [{| AuditTrail.id := 9; AuditTrail.userId := 1; AuditTrail.commandText := "ls";
        AuditTrail.creditsDeducted := 10; AuditTrail.creditsBefore := 15;
        AuditTrail.creditsAfter := 5; AuditTrail.createdAt := 7 |};
     {| AuditTrail.id := 10; AuditTrail.userId := 1; AuditTrail.commandText := "ls";
        AuditTrail.creditsDeducted := 10; AuditTrail.creditsBefore := 15;
        AuditTrail.creditsAfter := 5; AuditTrail.createdAt := 8 |}].
Proof. vm_compute. split_and!; reflexivity. Qed.

(** ** The engine on sample patterns *)

(** Without the escaping the command text [a.c] would, as a pattern,
    also accept [abc]; the pattern that approve builds does not. *)
Example escaping_matters :
  ((fun regex => JsRegExp.test regex "abc") <$> JsRegExp.compile "^a.c$") = Some true /\
  ((fun regex => JsRegExp.test regex "abc") <$> JsRegExp.compile (approval_pattern "a.c"))
  = Some false /\
  ((fun regex => JsRegExp.test regex "a.c") <$> JsRegExp.compile (approval_pattern "a.c"))
  = Some true /\
  approval_pattern "rm -rf /tmp/*.log (old)" = "^rm -rf /tmp/\*\.log \(old\)$"%string.
Proof. split_and!; vm_compute; reflexivity. Qed.

(** The seeded rules on the commands of their examples. *)
Example seeded_patterns :
  ((fun regex => JsRegExp.test regex "sudo rm  -rf /") <$> JsRegExp.compile "rm\s+-rf\s+/")
  = Some true /\
  ((fun regex => JsRegExp.test regex "git push") <$> JsRegExp.compile "git\s+(status|log|diff)")
  = Some false /\
  ((fun regex => JsRegExp.test regex "cat file.txt") <$> JsRegExp.compile "^(ls|cat|pwd|echo)")
  = Some true /\
  ((fun regex => JsRegExp.test regex "mkfs.ext4 /dev/sda") <$> JsRegExp.compile "mkfs\.")
  = Some true /\
  JsRegExp.compile "(" = None /\
  JsRegExp.compile "a**" = None.
Proof. split_and!; vm_compute; reflexivity. Qed.

(** * Further properties of the handlers *)

(** ** Reviews *)

Lemma find_app_none {A} (f : A -> bool) (l1 l2 : list A) :
  List.find f l1 = None -> List.find f (l1 ++ l2) = List.find f l2.
Proof.
  induction l1 as [|x l1 IH]; [done|]. cbn. destruct (f x); [done|]. exact IH.
Qed.

Lemma find_app_some {A} (f : A -> bool) (l1 l2 : list A) x :
  List.find f l1 = Some x -> List.find f (l1 ++ l2) = Some x.
Proof.
  induction l1 as [|y l1 IH]; [done|]. cbn. destruct (f y); [done|]. exact IH.
Qed.

Lemma reject_pending requestId approverUser now db request :
  db.(approvalRequests) !! requestId = Some request ->
  request.(ApprovalRequest.status) = pending ->
  reject requestId approverUser now db
  = (json 200 [("message", JStr "Approval request rejected");
               ("request", json_of_request (reviewed request rejected now approverUser))],
     set_approvalRequests
       (insert requestId (reviewed request rejected now approverUser)) db).
Proof.
  intros H Hst. unfold reject. rewrite H.
  rewrite bool_decide_eq_true_2 by done. cbn [negb].
  unfold approvalRequest_update. by rewrite H.
Qed.

Lemma reject_terminal requestId approverUser now db request :
  db.(approvalRequests) !! requestId = Some request ->
  request.(ApprovalRequest.status) <> pending ->
  reject requestId approverUser now db = (already request, db).
Proof.
  intros H Hst. unfold reject. rewrite H. by rewrite bool_decide_eq_false_2.
Qed.

(** X1.  One reject call on a pending request is enough: the request
    becomes rejected with the reviewer and the time recorded, no rule
    is created and no other table changes; from then on every approve
    and every reject on it, by anyone, is answered 400 [Request is
    already rejected] and changes nothing. *)
Theorem reject_is_final requestId approverUser now db request other later :
  db.(approvalRequests) !! requestId = Some request ->
  request.(ApprovalRequest.status) = pending ->
  let db' := (reject requestId approverUser now db).2 in
  (reject requestId approverUser now db).1.(status_code) = 200%nat /\
  db'.(approvalRequests) !! requestId
  = Some (reviewed request rejected now approverUser) /\
  db'.(regexRules) = db.(regexRules) /\
  db'.(users) = db.(users) /\
  db'.(auditTrail) = db.(auditTrail) /\
  approve requestId other later db'
  = (json 400 [("error", JStr "Request is already rejected")], db') /\
  reject requestId other later db'
  = (json 400 [("error", JStr "Request is already rejected")], db').
Proof.
  intros H Hst db'. subst db'. rewrite (reject_pending _ _ _ _ request) by done.
  cbn [fst snd].
  assert (Hl : (set_approvalRequests
                  (insert requestId (reviewed request rejected now approverUser)) db)
               .(approvalRequests) !! requestId
               = Some (reviewed request rejected now approverUser))
    by apply lookup_insert_eq.
  split_and!; try done.
  - by rewrite (approve_terminal _ _ _ _ _ Hl).
  - by rewrite (reject_terminal _ _ _ _ _ Hl).
Qed.

Lemma reject_is_final_witness :
  (reject 7 Sample.bob 3000 Sample.db0).1.(status_code) = 200%nat /\
  approve 7 Sample.carol 3001 (reject 7 Sample.bob 3000 Sample.db0).2
  = (json 400 [("error", JStr "Request is already rejected")],
     (reject 7 Sample.bob 3000 Sample.db0).2).
Proof.
  pose proof (reject_is_final 7 Sample.bob 3000 Sample.db0
                (Sample.make_request 7 "make test" pending) Sample.carol 3001
                eq_refl eq_refl) as H.
  split; [apply H | apply H].
Defined.

(** X2.  An approval cannot be taken back: after a successful approve,
    a reject of the same request by anyone is answered 400 [Request is
    already approved]; the request stays approved and the rule that
    the approval created stays in the rule set. *)
Theorem approved_cannot_be_rejected requestId approverUser now db other later :
  (approve requestId approverUser now db).1.(status_code) = 200%nat ->
  let db' := (approve requestId approverUser now db).2 in
  reject requestId other later db'
  = (json 400 [("error", JStr "Request is already approved")], db') /\
  (ApprovalRequest.status <$> db'.(approvalRequests) !! requestId) = Some approved /\
  exists request,
    db.(approvalRequests) !! requestId = Some request /\
    approved_rule request now db.(next_id) ∈ db'.(regexRules).
Proof.
  intros Hok db'. subst db'.
  destruct (approve_cases requestId approverUser now db)
    as [[Hr E]|[(r & Hr & Hst & E)|[(r & Hr & Hst & Hex & E)|(r & Hr & Hst & Hex & Hc & E)]]];
    try (rewrite E in Hok; discriminate Hok).
  rewrite E.
  assert (Hl : {| users := db.(users); apiKeys := db.(apiKeys);
                  regexRules := db.(regexRules) ++ [approved_rule r now db.(next_id)];
                  approvalRequests :=
                    <[requestId := reviewed r approved now approverUser]>
                      db.(approvalRequests);
                  auditTrail := db.(auditTrail);
                  next_id := S db.(next_id) |}.(approvalRequests) !! requestId
               = Some (reviewed r approved now approverUser))
    by apply lookup_insert_eq.
  split_and!.
  - by rewrite (reject_terminal _ _ _ _ _ Hl).
  - by rewrite Hl.
  - exists r. split; [done|]. cbn [regexRules]. set_solver.
Qed.

Lemma approved_cannot_be_rejected_witness :
  (approve 7 Sample.bob 3000 Sample.db0).1.(status_code) = 200%nat /\
  reject 7 Sample.carol 3001 (approve 7 Sample.bob 3000 Sample.db0).2
  = (json 400 [("error", JStr "Request is already approved")],
     (approve 7 Sample.bob 3000 Sample.db0).2).
Proof.
  split; [reflexivity|].
  apply (approved_cannot_be_rejected 7 Sample.bob 3000 Sample.db0 Sample.carol 3001).
  reflexivity.
Defined.

Lemma approval_pattern_injective text1 text2 :
  approval_pattern text1 = approval_pattern text2 -> text1 = text2.
Proof.
  intros Heq.
  destruct (approval_pattern_exact text1) as (regex1 & Hc1 & Ht1).
  destruct (approval_pattern_exact text2) as (regex2 & Hc2 & Ht2).
  rewrite Heq, Hc2 in Hc1. injection Hc1 as <-.
  apply (proj1 (Ht2 text1)), (proj2 (Ht1 text1)). reflexivity.
Qed.

(** X3.  The pattern built from a command text determines the text:
    two command texts give the same pattern exactly when they are the
    same text. *)
Theorem approval_pattern_inj text1 text2 :
  approval_pattern text1 = approval_pattern text2 <-> text1 = text2.
Proof.
  split; [apply approval_pattern_injective | by intros ->].
Qed.



(** ** The rule set *)

Section RuleSet.

Implicit Types (db : DB) (r : RegexRule.t) (rules : list RegexRule.t).

Lemma findUnique_Some pattern db r :
  regexRule_findUnique pattern db = Some r ->
  r ∈ db.(regexRules) /\ r.(RegexRule.pattern) = pattern.
Proof.
  intros H. apply find_some in H as [Hin Heq].
  split; [by apply list_elem_of_In|]. by apply String.eqb_eq in Heq.
Qed.

Lemma findUnique_None pattern db :
  regexRule_findUnique pattern db = None ->
  forall r, r ∈ db.(regexRules) -> r.(RegexRule.pattern) <> pattern.
Proof.
  intros H r Hin Heq. apply list_elem_of_In in Hin.
  apply (find_none _ _ H) in Hin. cbn in Hin. rewrite Heq, String.eqb_refl in Hin. done.
Qed.

Lemma findUnique_id_Some ruleId db r :
  regexRule_findUnique_id ruleId db = Some r ->
  r ∈ db.(regexRules) /\ r.(RegexRule.id) = ruleId.
Proof.
  intros H. apply find_some in H as [Hin Heq].
  split; [by apply list_elem_of_In|]. by apply Nat.eqb_eq in Heq.
Qed.

Lemma findUnique_id_None ruleId db :
  regexRule_findUnique_id ruleId db = None ->
  forall r, r ∈ db.(regexRules) -> r.(RegexRule.id) <> ruleId.
Proof.
  intros H r Hin Heq. apply list_elem_of_In in Hin.
  apply (find_none _ _ H) in Hin. cbn in Hin. rewrite Heq, Nat.eqb_refl in Hin. done.
Qed.

Lemma NoDup_fmap_eq {A B} (f : A -> B) (l : list A) x y :
  NoDup (f <$> l) -> x ∈ l -> y ∈ l -> f x = f y -> x = y.
Proof.
  induction l as [|a l IH]; [by intros _ ?%elem_of_nil|].
  rewrite fmap_cons, NoDup_cons. intros [Hnot Hnd] Hx Hy Heq.
  apply elem_of_cons in Hx as [->|Hx]; apply elem_of_cons in Hy as [->|Hy]; auto.
  - exfalso. apply Hnot. rewrite Heq. apply list_elem_of_fmap. eauto.
  - exfalso. apply Hnot. rewrite <- Heq. apply list_elem_of_fmap. eauto.
Qed.

Lemma elem_of_replace_rule ruleId r' rules x :
  x ∈ replace_rule ruleId r' rules -> x = r' \/ x ∈ rules.
Proof.
  induction rules as [|r rules IH]; cbn; [by intros ?%elem_of_nil|].
  destruct (Nat.eqb _ _).
  - intros [->|Hx]%elem_of_cons; [by left|]. right. by apply list_elem_of_further.
  - intros [->|Hx]%elem_of_cons; [right; apply list_elem_of_here|].
    destruct (IH Hx); [by left|]. right. by apply list_elem_of_further.
Qed.

Lemma elem_of_remove_rule ruleId rules x :
  x ∈ remove_rule ruleId rules -> x ∈ rules.
Proof.
  induction rules as [|r rules IH]; cbn; [done|].
  destruct (Nat.eqb _ _).
  - apply list_elem_of_further.
  - intros [->|Hx]%elem_of_cons; [apply list_elem_of_here|].
    by apply list_elem_of_further, IH.
Qed.

Lemma replace_rule_ids ruleId r' rules :
  r'.(RegexRule.id) = ruleId ->
  RegexRule.id <$> replace_rule ruleId r' rules = RegexRule.id <$> rules.
Proof.
  intros Hid. induction rules as [|r rules IH]; cbn; [done|].
  destruct (Nat.eqb_spec r.(RegexRule.id) ruleId) as [Heq|Hne]; cbn.
  - by rewrite Hid, Heq.
  - by rewrite IH.
Qed.


Lemma replace_rule_patterns ruleId r' rules :
  NoDup (RegexRule.pattern <$> rules) ->
  NoDup (RegexRule.id <$> rules) ->
  (forall x, x ∈ rules -> x.(RegexRule.pattern) = r'.(RegexRule.pattern) ->
             x.(RegexRule.id) = ruleId) ->
  NoDup (RegexRule.pattern <$> replace_rule ruleId r' rules).
Proof.
  induction rules as [|r rules IH]; cbn; [done|].
  rewrite !NoDup_cons. intros [Hp Hps] [Hi His] Hown.
  destruct (Nat.eqb_spec r.(RegexRule.id) ruleId) as [Heq|Hne]; cbn.
  - apply NoDup_cons. split; [|done].
    intros (x & Hx & Hin)%list_elem_of_fmap.
    apply Hi. apply list_elem_of_fmap. exists x. split; [|done].
    rewrite Heq. symmetry. apply Hown; [by apply list_elem_of_further | done].
  - apply NoDup_cons. split.
    + intros (x & Hx & Hin)%list_elem_of_fmap.
      apply elem_of_replace_rule in Hin as [->|Hin].
      * apply Hne. apply Hown; [apply list_elem_of_here | done].
      * apply Hp. apply list_elem_of_fmap. eauto.
    + apply IH; [done..|]. intros x Hx. apply Hown. by apply list_elem_of_further.
Qed.

Lemma remove_rule_NoDup {B} (f : RegexRule.t -> B) ruleId rules :
  NoDup (f <$> rules) -> NoDup (f <$> remove_rule ruleId rules).
Proof.
  induction rules as [|r rules IH]; cbn; [done|].
  rewrite NoDup_cons. intros [Hp Hps].
  destruct (Nat.eqb _ _); cbn; [done|].
  apply NoDup_cons. split; [|by apply IH].
  intros (x & Hx & Hin)%list_elem_of_fmap. apply elem_of_remove_rule in Hin.
  apply Hp. apply list_elem_of_fmap. eauto.
Qed.

Lemma remove_rule_filter ruleId rules :
  NoDup (RegexRule.id <$> rules) ->
  remove_rule ruleId rules
  = List.filter (fun r => negb (Nat.eqb r.(RegexRule.id) ruleId)) rules.
Proof.
  induction rules as [|r rules IH]; cbn; [done|].
  rewrite NoDup_cons. intros [Hi His].
  destruct (Nat.eqb_spec r.(RegexRule.id) ruleId) as [Heq|Hne]; cbn.
  - symmetry. apply forallb_filter_id. apply forallb_forall. intros x Hx.
    apply negb_true_iff, Nat.eqb_neq. intros Hxid. apply Hi.
    apply list_elem_of_fmap. exists x. split; [congruence|]. by apply list_elem_of_In.
  - by rewrite IH.
Qed.

(** The three writes on the rule table keep it well formed. *)
Lemma regexRule_create_wf pattern action exampleMatch now db r db' :
  rules_wf db ->
  regexRule_create pattern action exampleMatch now db = Ok (r, db') ->
  rules_wf db' /\ db'.(regexRules) = db.(regexRules) ++ [r] /\
  r.(RegexRule.pattern) = pattern /\ r.(RegexRule.action) = action /\
  r.(RegexRule.createdAt) = now /\ r.(RegexRule.id) = db.(next_id).
Proof.
  intros (Hp & Hi & Hfresh). unfold regexRule_create.
  destruct (regexRule_findUnique pattern db) eqn:Hfind; [done|].
  intros [= <- <-]. unfold rules_wf. cbn [regexRules next_id RegexRule.pattern RegexRule.action RegexRule.createdAt RegexRule.id].
  split_and!; try done.
  rewrite fmap_app. apply NoDup_app. split_and!; [done| |apply NoDup_singleton].
  - intros p (x & -> & Hx)%list_elem_of_fmap [= Heq]%list_elem_of_singleton.
    by apply (findUnique_None _ _ Hfind x Hx).
  - rewrite fmap_app. apply NoDup_app. split_and!; [done| |apply NoDup_singleton].
    intros i (x & -> & Hx)%list_elem_of_fmap [= Heq]%list_elem_of_singleton.
    apply Hfresh in Hx. cbn in Heq. lia.
  - intros x [Hx| ->%list_elem_of_singleton]%elem_of_app; cbn; [|lia].
    apply Hfresh in Hx. lia.
Qed.

Lemma regexRule_update_wf ruleId pattern action exampleMatch db r db' :
  rules_wf db ->
  regexRule_update ruleId pattern action exampleMatch db = Ok (r, db') ->
  rules_wf db'.
Proof.
  intros (Hp & Hi & Hfresh). unfold regexRule_update.
  destruct (negb (storable pattern && storable_opt exampleMatch)); [done|].
  destruct (regexRule_findUnique_id ruleId db) as [old|] eqn:Hold; [|done].
  apply findUnique_id_Some in Hold as [Hold_in Hold_id].
  set (r' := {| RegexRule.id := old.(RegexRule.id); RegexRule.pattern := pattern;
                RegexRule.action := action; RegexRule.exampleMatch := exampleMatch;
                RegexRule.createdAt := old.(RegexRule.createdAt) |}).
  assert (Hgoal : (forall x, x ∈ db.(regexRules) -> x.(RegexRule.pattern) = pattern ->
                             x.(RegexRule.id) = ruleId) ->
                  rules_wf (set_regexRules (replace_rule ruleId r') db)).
  { intros Hown. split_and!; cbn.
    - by apply replace_rule_patterns.
    - by rewrite replace_rule_ids.
    - intros x [->|Hx]%elem_of_replace_rule; [|by apply Hfresh].
      cbn. by apply Hfresh. }
  destruct (regexRule_findUnique pattern db) as [other|] eqn:Hother.
  - destruct (Nat.eqb_spec other.(RegexRule.id) ruleId) as [Hoid|]; [|done].
    intros [= <- <-]. apply Hgoal. intros x Hx Hxp.
    apply findUnique_Some in Hother as [Hother_in Hother_p].
    by rewrite (NoDup_fmap_eq RegexRule.pattern _ x other Hp Hx Hother_in) by congruence.
  - intros [= <- <-]. apply Hgoal. intros x Hx Hxp.
    by destruct (findUnique_None _ _ Hother x Hx).
Qed.

Lemma regexRule_delete_wf ruleId db u db' :
  rules_wf db -> regexRule_delete ruleId db = Ok (u, db') -> rules_wf db'.
Proof.
  intros (Hp & Hi & Hfresh). unfold regexRule_delete.
  destruct (regexRule_findUnique_id ruleId db); [|done].
  intros [= <- <-]. split_and!; cbn.
  - by apply remove_rule_NoDup.
  - by apply remove_rule_NoDup.
  - intros x Hx%elem_of_remove_rule. by apply Hfresh.
Qed.

Lemma rules_wf_other_tables db db' :
  db'.(regexRules) = db.(regexRules) -> (db.(next_id) <= db'.(next_id))%nat ->
  rules_wf db -> rules_wf db'.
Proof.
  intros Hr Hn (Hp & Hi & Hfresh). unfold rules_wf. rewrite Hr.
  split_and!; [done..|]. intros x Hx. apply Hfresh in Hx. lia.
Qed.

End RuleSet.

Section RuleEndpoints.

Context {engine : RegExpEngine}.

(** What a call of POST /add-regex-rule, PUT /regex-rules/:ruleId or
    DELETE /regex-rules/:ruleId does to the database: nothing, or the
    one write of the handler. *)
Lemma add_regex_rule_outcome pattern action exampleMatch now db :
  ((add_regex_rule pattern action exampleMatch now db).2 = db /\
   (add_regex_rule pattern action exampleMatch now db).1.(status_code) <> 201%nat)
  \/ exists p a e r,
      pattern = JStr p /\ isValidRegex p = true /\
      regexRule_create p a e now db
      = Ok (r, (add_regex_rule pattern action exampleMatch now db).2) /\
      (add_regex_rule pattern action exampleMatch now db).1.(status_code) = 201%nat.
Proof.
  unfold add_regex_rule, request_text.
  repeat case_match; simplify_eq/=; try (by left);
    right; do 4 eexists; (split_and!; [reflexivity| |eassumption|reflexivity]);
    by destruct (isValidRegex _).
Qed.

Lemma update_regex_rule_outcome ruleId pattern action exampleMatch now db :
  ((update_regex_rule ruleId pattern action exampleMatch now db).2 = db /\
   (update_regex_rule ruleId pattern action exampleMatch now db).1.(status_code) <> 200%nat)
  \/ exists p a e r,
      pattern = JStr p /\ isValidRegex p = true /\
      regexRule_update ruleId p a e db
      = Ok (r, (update_regex_rule ruleId pattern action exampleMatch now db).2) /\
      (update_regex_rule ruleId pattern action exampleMatch now db).1.(status_code)
      = 200%nat.
Proof.
  unfold update_regex_rule.
  repeat case_match; simplify_eq/=; try (by left);
    right; do 4 eexists; (split_and!; [reflexivity| |eassumption|reflexivity]);
    by destruct (isValidRegex _).
Qed.

Lemma findUnique_id_present ruleId db mine :
  mine ∈ db.(regexRules) -> mine.(RegexRule.id) = ruleId ->
  is_Some (regexRule_findUnique_id ruleId db).
Proof.
  intros Hin Hid. destruct (regexRule_findUnique_id ruleId db) eqn:H; [eauto|].
  by destruct (findUnique_id_None _ _ H mine Hin).
Qed.


(** X6.  Every handler that can write to the database keeps the rule
    table well formed: patterns stay pairwise distinct, rule ids stay
    pairwise distinct and below the id counter. *)
Theorem handlers_keep_rules_wf db :
  rules_wf db ->
  (forall pattern action exampleMatch now,
      rules_wf (add_regex_rule pattern action exampleMatch now db).2) /\
  (forall ruleId pattern action exampleMatch now,
      rules_wf (update_regex_rule ruleId pattern action exampleMatch now db).2) /\
  (forall ruleId, rules_wf (delete_regex_rule ruleId db).2) /\
  (forall requestId approverUser now, rules_wf (approve requestId approverUser now db).2) /\
  (forall requestId approverUser now, rules_wf (reject requestId approverUser now db).2) /\
  (forall user command_text now, rules_wf (command user command_text now db).2) /\
  (forall user command_text now, rules_wf (approval_request user command_text now db).2).
Proof.
  intros Hwf. split_and!.
  - intros pattern action exampleMatch now.
    destruct (add_regex_rule_outcome pattern action exampleMatch now db)
      as [[-> _]|(p & a & e & r & _ & _ & Hc & _)]; [done|].
    by apply (regexRule_create_wf _ _ _ _ _ _ _ Hwf) in Hc as [? _].
  - intros ruleId pattern action exampleMatch now.
    destruct (update_regex_rule_outcome ruleId pattern action exampleMatch now db)
      as [[-> _]|(p & a & e & r & _ & _ & Hc & _)]; [done|].
    by apply (regexRule_update_wf _ _ _ _ _ _ _ Hwf) in Hc.
  - intros ruleId. unfold delete_regex_rule.
    destruct (regexRule_findUnique_id ruleId db); [|done].
    destruct (regexRule_delete ruleId db) as [[u db']|] eqn:Hd; [|done].
    by apply (regexRule_delete_wf _ _ _ _ Hwf Hd).
  - intros requestId approverUser now.
    destruct (approve_cases requestId approverUser now db)
      as [[_ ->]|[(r & _ & _ & ->)|[(r & _ & _ & _ & ->)|(r & _ & _ & Hfree & _ & ->)]]];
      try done.
    assert (Hc : regexRule_create
                   (approval_pattern r.(ApprovalRequest.commandText)) AUTO_ACCEPT
                   (Some r.(ApprovalRequest.commandText)) now db
                 = Ok (approved_rule r now db.(next_id),
                       {| users := db.(users); apiKeys := db.(apiKeys);
                          regexRules := db.(regexRules) ++ [approved_rule r now db.(next_id)];
                          approvalRequests := db.(approvalRequests);
                          auditTrail := db.(auditTrail);
                          next_id := S db.(next_id) |}))
      by (unfold regexRule_create; by rewrite Hfree).
    apply (regexRule_create_wf _ _ _ _ _ _ _ Hwf) in Hc as [Hwf' _].
    by apply (rules_wf_other_tables _ _ eq_refl (Nat.le_refl _)) in Hwf'.
  - intros requestId approverUser now. unfold reject, approvalRequest_update.
    repeat case_match; simplify_eq/=; try done;
      by apply (rules_wf_other_tables db).
  - intros user command_text now.
    unfold command, command_charge, transaction, user_update_decrement, auditTrail_create.
    repeat case_match; simplify_eq/=; try done;
      apply (rules_wf_other_tables db); cbn; [done|lia|done].
  - intros user command_text now. unfold approval_request, approvalRequest_create.
    repeat case_match; simplify_eq/=; try done;
      apply (rules_wf_other_tables db); cbn; [done|lia|done].
Qed.


(** X8.  A well-formed PUT /regex-rules/:ruleId on a well-formed rule
    table: an unknown id is answered 404; a pattern that belongs to
    another rule is answered 409; both leave the database unchanged.
    Sending a rule its own pattern again is no conflict: when the
    pattern and the example hold no U+0000 (PostgreSQL stores neither
    otherwise, and the request is answered 500) it is answered 200. *)
Theorem update_regex_rule_conflicts ruleId pattern action exampleMatch now db :
  rules_wf db ->
  pattern <> ""%string ->
  action = "AUTO_REJECT"%string \/ action = "AUTO_ACCEPT"%string ->
  isValidRegex pattern = true ->
  (regexRule_findUnique_id ruleId db = None ->
   update_regex_rule ruleId (JStr pattern) (JStr action) exampleMatch now db
   = (json 404 [("error", JStr "Regex rule not found")], db)) /\
  (forall mine other,
      mine ∈ db.(regexRules) -> mine.(RegexRule.id) = ruleId ->
      other ∈ db.(regexRules) -> other.(RegexRule.pattern) = pattern ->
      other.(RegexRule.id) <> ruleId ->
      update_regex_rule ruleId (JStr pattern) (JStr action) exampleMatch now db
      = (json 409 [("error", JStr "Pattern already exists");
                   ("message", JStr "A rule with this pattern already exists")], db)) /\
  (forall mine,
      mine ∈ db.(regexRules) -> mine.(RegexRule.id) = ruleId ->
      mine.(RegexRule.pattern) = pattern ->
      storable pattern = true ->
      exampleMatch = JNull \/ (exists e, exampleMatch = JStr e /\ storable e = true) ->
      (update_regex_rule ruleId (JStr pattern) (JStr action) exampleMatch now db).1
        .(status_code) = 200%nat).
Proof.
  intros (Hpat & Hids & _) Hp Ha Hvalid. apply String.eqb_neq in Hp.
  split_and!.
  - intros Hnone. unfold update_regex_rule. cbn [truthy]. rewrite Hp. cbn [negb].
    destruct Ha as [-> | ->]; cbn; by rewrite Hvalid, Hnone.
  - intros mine other Hmine Hmid Hother Hop Hoid.
    destruct (findUnique_id_present ruleId db mine Hmine Hmid) as [m Hm].
    destruct (findUnique_present pattern db other Hother Hop) as [o Ho].
    pose proof (findUnique_Some _ _ _ Ho) as [Ho_in Ho_p].
    assert (o = other) as ->
      by (apply (NoDup_fmap_eq RegexRule.pattern db.(regexRules)); congruence).
    apply Nat.eqb_neq in Hoid.
    unfold update_regex_rule. cbn [truthy]. rewrite Hp. cbn [negb].
    destruct Ha as [-> | ->]; cbn; by rewrite Hvalid, Hm, Ho, Hoid.
  - intros mine Hmine Hmid Hmp Hsp Hex.
    destruct (findUnique_id_present ruleId db mine Hmine Hmid) as [m Hm].
    destruct (findUnique_present pattern db mine Hmine Hmp) as [o Ho].
    pose proof (findUnique_Some _ _ _ Ho) as [Ho_in Ho_p].
    assert (o = mine) as ->
      by (apply (NoDup_fmap_eq RegexRule.pattern db.(regexRules)); congruence).
    apply Nat.eqb_eq in Hmid.
    unfold update_regex_rule, regexRule_update. cbn [truthy]. rewrite Hp. cbn [negb].
    destruct Ha as [-> | ->]; cbn; rewrite Hvalid, Hm, Ho, Hmid; cbn;
      destruct Hex as [-> | (e & -> & Hse)]; cbn; rewrite ?Hm, ?Ho, ?Hmid;
      try destruct (String.eqb e ""); cbn; rewrite ?Hsp, ?Hse; cbn;
      rewrite ?Hm, ?Ho, ?Hmid; reflexivity.
Qed.

End RuleEndpoints.

(** X9.  DELETE /regex-rules/:ruleId on a well-formed rule table: an
    unknown id is answered 404 and nothing changes; a known id is
    answered 200, the rule with that id is gone, every other rule is
    kept in its place, and the pattern of the deleted rule is free
    again. *)
Theorem delete_regex_rule_removes ruleId db :
  rules_wf db ->
  match regexRule_findUnique_id ruleId db with
  | None =>
      delete_regex_rule ruleId db = (json 404 [("error", JStr "Regex rule not found")], db)
  | Some deleted =>
      let db' := (delete_regex_rule ruleId db).2 in
      (delete_regex_rule ruleId db).1
      = json 200 [("message", JStr "Regex rule deleted successfully")] /\
      db'.(regexRules)
      = List.filter (fun r => negb (Nat.eqb r.(RegexRule.id) ruleId)) db.(regexRules) /\
      regexRule_findUnique_id ruleId db' = None /\
      regexRule_findUnique deleted.(RegexRule.pattern) db' = None /\
      (forall r, r ∈ db.(regexRules) -> r <> deleted -> r ∈ db'.(regexRules))
  end.
Proof.
  intros (Hpat & Hids & _).
  destruct (regexRule_findUnique_id ruleId db) as [deleted|] eqn:Hfind.
  - pose proof (findUnique_id_Some _ _ _ Hfind) as [Hin Hid].
    unfold delete_regex_rule, regexRule_delete. rewrite Hfind.
    cbn [fst snd regexRules set_regexRules].
    rewrite (remove_rule_filter _ _ Hids).
    assert (Hmem : forall r, r ∈ List.filter
                       (fun r => negb (Nat.eqb r.(RegexRule.id) ruleId)) db.(regexRules)
                     <-> r ∈ db.(regexRules) /\ r.(RegexRule.id) <> ruleId).
    { intros r. rewrite !list_elem_of_In, filter_In, negb_true_iff, Nat.eqb_neq. done. }
    split_and!; try done.
    + unfold regexRule_findUnique_id. cbn [regexRules set_regexRules].
      rewrite (remove_rule_filter _ _ Hids).
      destruct (List.find _ _) as [x|] eqn:Hx; [|done].
      apply find_some in Hx as [Hx1 Hx2]. apply list_elem_of_In, Hmem in Hx1 as [_ Hne].
      by apply Nat.eqb_eq in Hx2.
    + unfold regexRule_findUnique. cbn [regexRules set_regexRules].
      rewrite (remove_rule_filter _ _ Hids).
      destruct (List.find _ _) as [x|] eqn:Hx; [|done].
      apply find_some in Hx as [Hx1 Hx2]. apply list_elem_of_In, Hmem in Hx1 as [Hx1 Hne].
      apply String.eqb_eq in Hx2.
      rewrite (NoDup_fmap_eq RegexRule.pattern _ x deleted Hpat Hx1 Hin Hx2) in Hne. done.
    + intros r Hr Hne. apply Hmem. split; [done|]. intros Hrid. apply Hne.
      apply (NoDup_fmap_eq RegexRule.id db.(regexRules)); congruence.
  - unfold delete_regex_rule. by rewrite Hfind.
Qed.

Lemma sample_rules_wf : rules_wf Sample.db0.
Proof.
  split_and!.
  - by apply (bool_decide_unpack _).
  - by apply (bool_decide_unpack _).
  - intros r Hr. repeat (apply elem_of_cons in Hr as [->|Hr]); cbn; try lia.
    by apply elem_of_nil in Hr.
Qed.


Lemma handlers_keep_rules_wf_witness :
  rules_wf Sample.db0 /\ rules_wf (approve 7 Sample.bob 3000 Sample.db0).2.
Proof.
  split; [exact sample_rules_wf|].
  apply (handlers_keep_rules_wf (engine := js_engine) Sample.db0 sample_rules_wf).
Defined.


Lemma update_regex_rule_conflicts_witness :
  rules_wf Sample.db0 /\
  update_regex_rule (engine := js_engine)
    6 (JStr "^(ls|cat|pwd|echo)") (JStr "AUTO_REJECT") JNull 3000 Sample.db0
  = (json 409 [("error", JStr "Pattern already exists");
               ("message", JStr "A rule with this pattern already exists")], Sample.db0).
Proof.
  split; [exact sample_rules_wf|].
  destruct (update_regex_rule_conflicts (engine := js_engine)
              6 "^(ls|cat|pwd|echo)" "AUTO_REJECT" JNull 3000 Sample.db0
              sample_rules_wf ltac:(discriminate) (or_introl eq_refl) eq_refl)
    as (_ & H & _).
  apply (H Sample.broken_rule Sample.ls_rule).
  - apply list_elem_of_further, list_elem_of_here.
  - reflexivity.
  - apply list_elem_of_here.
  - reflexivity.
  - discriminate.
Defined.

Lemma delete_regex_rule_removes_witness :
  rules_wf Sample.db0 /\
  regexRule_findUnique_id 5 (delete_regex_rule 5 Sample.db0).2 = None.
Proof.
  split; [exact sample_rules_wf|].
  pose proof (delete_regex_rule_removes 5 Sample.db0 sample_rules_wf) as H.
  change (regexRule_findUnique_id 5 Sample.db0) with (Some Sample.ls_rule) in H.
  apply H.
Defined.

(** ** Commands and balances *)

Section Commands.

Context {engine : RegExpEngine}.

(** X10.  A user whose [req.user] is the stored row, with at least 10
    credits, submits a command matched by an AUTO_ACCEPT rule, the
    text holding no U+0000 (PostgreSQL does not store the audit row
    otherwise, and the request is answered 500 with nothing charged):
    the answer is 200 with the new balance; exactly 10 credits are
    taken from that user and from nobody else; exactly one audit row
    is appended, whose before and after are the stored balance before
    and after; the rules and the approval requests are untouched. *)
Theorem command_executes user text rule now db :
  db.(users) !! user.(User.id) = Some user ->
  (10 <= user.(User.credits))%Z ->
  text <> ""%string ->
  storable text = true ->
  evaluate db text = Some rule ->
  rule.(RegexRule.action) = AUTO_ACCEPT ->
  let result := command user (JStr text) now db in
  result.1
  = json 200 [("status", JStr "executed");
              ("command", JStr text);
              ("message", JStr "Command logged successfully");
              ("new_balance", JNum (user.(User.credits) - 10));
              ("credits_deducted", JNum 10);
              ("audit_trail_id", JId db.(next_id));
              ("matched_rule", json_of_match rule)] /\
  (User.credits <$> result.2.(users) !! user.(User.id))
  = Some (user.(User.credits) - 10)%Z /\
  (forall k, k <> user.(User.id) -> result.2.(users) !! k = db.(users) !! k) /\
  result.2.(auditTrail)
  = db.(auditTrail) ++
    [{| AuditTrail.id := db.(next_id); AuditTrail.userId := user.(User.id);
        AuditTrail.commandText := text; AuditTrail.creditsDeducted := 10;
        AuditTrail.creditsBefore := user.(User.credits);
        AuditTrail.creditsAfter := user.(User.credits) - 10;
        AuditTrail.createdAt := now |}] /\
  result.2.(regexRules) = db.(regexRules) /\
  result.2.(approvalRequests) = db.(approvalRequests).
Proof.
  intros Hrow Hcredits Htext Hstorable Hrule Hact result. subst result.
  apply String.eqb_neq in Htext.
  assert (Hlt : (user.(User.credits) <? 10)%Z = false) by (apply Z.ltb_ge; lia).
  assert (Hrange : (user.(User.credits) - 10 <? int4_min)%Z = false)
    by (apply Z.ltb_ge; unfold int4_min; lia).
  unfold command, command_check. cbn [truthy]. rewrite Htext. cbn [negb].
  rewrite Hrule, Hact, bool_decide_eq_false_2, Hlt by done.
  unfold command_charge, transaction, user_update_decrement, auditTrail_create.
  rewrite Hrow, Hrange, Hstorable. cbn.
  split_and!; try done.
  - by rewrite lookup_insert_eq.
  - intros k Hk. by rewrite lookup_insert_ne.
Qed.

(** X11.  A command that no rule matches is answered 400, a command
    whose first matching rule is AUTO_REJECT is answered 403, whatever
    the balance of the user; neither costs credits nor leaves a trace:
    the database is unchanged. *)
Theorem rejected_commands_cost_nothing user text now db :
  text <> ""%string ->
  (evaluate db text = None ->
   command user (JStr text) now db
   = (json 400
        [("status", JStr "rejected");
         ("command", JStr text);
         ("error", JStr "Command does not match any allowed pattern");
         ("message", JStr "The command does not match any regex rule in the system")],
      db)) /\
  (forall rule,
      evaluate db text = Some rule ->
      rule.(RegexRule.action) = AUTO_REJECT ->
      command user (JStr text) now db
      = (json 403
           [("status", JStr "rejected");
            ("command", JStr text);
            ("error", JStr "Command rejected by security rule");
            ("message", JStr ("Command matches a rejected pattern: " +:+
                              rule.(RegexRule.pattern)));
            ("matched_rule", json_of_match rule)],
         db)).
Proof.
  intros Htext. apply String.eqb_neq in Htext. split.
  - intros Hnone. unfold command, command_check. cbn [truthy].
    rewrite Htext. cbn [negb]. by rewrite Hnone.
  - intros rule Hrule Hact. unfold command, command_check. cbn [truthy].
    rewrite Htext. cbn [negb]. by rewrite Hrule, Hact, bool_decide_eq_true_2.
Qed.

(** X12.  Whenever POST /command answers 200, the [new_balance] it
    announces is the balance now stored for the user, 10 below the
    balance stored before, and a GET /get-credit-balance that follows
    reports the same number; the audit row, however, records the
    balance of [req.user], whether or not that is the stored one. *)
Theorem new_balance_is_stored_balance user command_text now db :
  (command user command_text now db).1.(status_code) = 200%nat ->
  let result := command user command_text now db in
  exists stored row,
    db.(users) !! user.(User.id) = Some stored /\
    field "new_balance" result.1.(body) = Some (JNum (stored.(User.credits) - 10)) /\
    (User.credits <$> result.2.(users) !! user.(User.id))
    = Some (stored.(User.credits) - 10)%Z /\
    field "credits" (get_credit_balance user result.2).(body)
    = field "new_balance" result.1.(body) /\
    result.2.(auditTrail) = db.(auditTrail) ++ [row] /\
    row.(AuditTrail.creditsBefore) = user.(User.credits) /\
    row.(AuditTrail.creditsAfter) = (user.(User.credits) - 10)%Z.
Proof.
  intros Hok result. subst result. revert Hok.
  unfold command, command_check, command_charge, transaction,
    user_update_decrement, auditTrail_create, get_credit_balance.
  repeat case_match; simplify_eq/=; try done; intros _.
  all: do 2 eexists; split_and!; try reflexivity.
  all: try (by rewrite lookup_insert_eq).
  all: match goal with
       | H : (<[_:=_]> _ !! _ = _) |- _ => rewrite lookup_insert_eq in H; by simplify_eq
       end.
Qed.

End Commands.

Lemma command_executes_witness :
  (command (engine := js_engine) Sample.alice (JStr "ls") 3000 Sample.db0).1.(status_code)
  = 200%nat /\
  (User.credits <$>
     (command (engine := js_engine) Sample.alice (JStr "ls") 3000 Sample.db0).2.(users)
       !! 1%nat) = Some 5%Z.
Proof.
  pose proof (command_executes (engine := js_engine)
                Sample.alice "ls" Sample.ls_rule 3000 Sample.db0
                eq_refl ltac:(discriminate) ltac:(discriminate) eq_refl
                ltac:(vm_compute; reflexivity) eq_refl) as (H1 & H2 & _).
  split; [by rewrite H1 | exact H2].
Defined.

Lemma rejected_commands_cost_nothing_witness :
  evaluate (engine := js_engine) Sample.db0 "make" = None /\
  (command (engine := js_engine) Sample.alice (JStr "make") 3000 Sample.db0).2 = Sample.db0.
Proof.
  split; [vm_compute; reflexivity|].
  destruct (rejected_commands_cost_nothing (engine := js_engine)
              Sample.alice "make" 3000 Sample.db0 ltac:(discriminate)) as [H _].
  rewrite H; [reflexivity | vm_compute; reflexivity].
Defined.

Lemma new_balance_is_stored_balance_witness :
  (command (engine := js_engine) Sample.alice (JStr "ls") 3000 Sample.db0).1.(status_code)
  = 200%nat /\
  field "credits"
    (get_credit_balance Sample.alice
       (command (engine := js_engine) Sample.alice (JStr "ls") 3000 Sample.db0).2).(body)
  = field "new_balance"
      (command (engine := js_engine) Sample.alice (JStr "ls") 3000 Sample.db0).1.(body).
Proof.
  split; [reflexivity|].
  destruct (new_balance_is_stored_balance (engine := js_engine)
              Sample.alice (JStr "ls") 3000 Sample.db0 eq_refl)
    as (stored & row & H).
  apply H.
Defined.

Section Alone.

Context {engine : RegExpEngine}.

(** One step of a request whose [req.user] is the stored row. *)
Lemma step_fresh now t db :
  users_keyed db -> balances_nonneg db -> snapshot_fresh t db ->
  users_keyed (step now t db).2 /\
  balances_nonneg (step now t db).2 /\
  snapshot_fresh (step now t db).1 (step now t db).2.
Proof.
  intros Hkeyed Hnonneg Hfresh. destruct t as [apiKey ct|kr user ct|user ct|user text rule|res].
  - unfold step. repeat case_match; simplify_eq/=; try done.
    split_and!; [done..|].
    match goal with H : users db !! _ = Some _ |- _ =>
      pose proof (Hkeyed _ _ H) as Hid; by rewrite Hid end.
  - unfold step, apiKey_update_lastUsed. repeat case_match; simplify_eq/=; done.
  - unfold step, command_check. cbn in Hfresh.
    repeat case_match; simplify_eq/=; try done.
    split_and!; try done.
    match goal with H : (_ <? 10)%Z = false |- _ => apply Z.ltb_ge in H; lia end.
  - destruct Hfresh as [Hrow Hten].
    unfold step, command_charge, transaction, user_update_decrement, auditTrail_create.
    rewrite Hrow. repeat case_match; simplify_eq/=; try done.
    split_and!; [| |done].
    + intros k u. cbn. destruct (decide (k = user.(User.id))) as [->|Hne].
      * rewrite lookup_insert_eq. by intros [= <-].
      * rewrite lookup_insert_ne by done. apply Hkeyed.
    + intros k u. cbn. destruct (decide (k = user.(User.id))) as [->|Hne].
      * rewrite lookup_insert_eq. intros [= <-]. cbn. lia.
      * rewrite lookup_insert_ne by done. apply Hnonneg.
  - done.
Qed.

(** X13.  A POST /command served alone, from the header check to the
    response, never overdraws: if no stored balance is negative before
    the request, none is after it, whatever the key and the body. *)
Theorem served_alone_never_overdraws apiKey command_text now db :
  users_keyed db ->
  balances_nonneg db ->
  users_keyed (post_command apiKey command_text now db).2 /\
  balances_nonneg (post_command apiKey command_text now db).2.
Proof.
  intros Hkeyed Hnonneg. unfold post_command.
  pose proof (step_fresh now (Received apiKey command_text) db Hkeyed Hnonneg I) as H1.
  destruct (step now (Received apiKey command_text) db) as [t1 db1].
  destruct H1 as (Hk1 & Hn1 & Hf1).
  pose proof (step_fresh now t1 db1 Hk1 Hn1 Hf1) as H2.
  destruct (step now t1 db1) as [t2 db2]. destruct H2 as (Hk2 & Hn2 & Hf2).
  pose proof (step_fresh now t2 db2 Hk2 Hn2 Hf2) as H3.
  destruct (step now t2 db2) as [t3 db3]. destruct H3 as (Hk3 & Hn3 & Hf3).
  pose proof (step_fresh now t3 db3 Hk3 Hn3 Hf3) as H4.
  by destruct H4 as (Hk4 & Hn4 & _).
Qed.

End Alone.

Lemma sample_users_keyed : users_keyed Sample.db0.
Proof.
  change (map_Forall (fun k u => u.(User.id) = k) Sample.db0.(users)).
  apply (bool_decide_unpack _). vm_compute. exact I.
Qed.

Lemma sample_balances_nonneg : balances_nonneg Sample.db0.
Proof.
  change (map_Forall (fun (_ : nat) u => (0 <= u.(User.credits))%Z) Sample.db0.(users)).
  apply (bool_decide_unpack _). vm_compute. exact I.
Qed.

Lemma served_alone_never_overdraws_witness :
  users_keyed Sample.db0 /\ balances_nonneg Sample.db0 /\
  balances_nonneg
    (post_command (engine := js_engine) (Some "sk_alice") (JStr "ls") 3000 Sample.db0).2.
Proof.
  split; [exact sample_users_keyed|]. split; [exact sample_balances_nonneg|].
  apply (served_alone_never_overdraws (engine := js_engine)
           (Some "sk_alice") (JStr "ls") 3000 Sample.db0
           sample_users_keyed sample_balances_nonneg).
Defined.

(** ** Middlewares and routes *)

(** X14.  What a middleware does, whichever of the three it is.  When
    it denies the request the database is unchanged (a refused caller
    does not even refresh [lastUsed]) and the answer is 401, 403 or 500.
    When it lets the request through, [req.user] is the stored owner of
    the key presented, the role test passed, and only the API key table
    was written. *)
Theorem middleware_effects role_check apiKey now db :
  match authenticate role_check apiKey now db with
  | (Denied res, db') =>
      db' = db /\
      (res.(status_code) = 401%nat \/ res.(status_code) = 500%nat \/
       exists user, role_check user = Some res)
  | (Granted user, db') =>
      (exists k keyRecord,
          apiKey = Some k /\ db.(apiKeys) !! k = Some keyRecord /\
          db.(users) !! keyRecord.(ApiKey.userId) = Some user) /\
      role_check user = None /\
      db'.(users) = db.(users) /\
      db'.(regexRules) = db.(regexRules) /\
      db'.(approvalRequests) = db.(approvalRequests) /\
      db'.(auditTrail) = db.(auditTrail) /\
      db'.(next_id) = db.(next_id)
  end.
Proof.
  unfold authenticate, apiKey_update_lastUsed.
  repeat case_match; simplify_eq/=; split_and!; eauto.
Qed.

(** X15.  Reviewing is for approvers only: when the owner of the key
    has any other role, administrators included, POST
    /approval-requests/:id/approve and .../reject are answered 403 and
    the database is unchanged, whatever the request. *)
Theorem only_approvers_review requestId k keyRecord user now db :
  k <> ""%string ->
  db.(apiKeys) !! k = Some keyRecord ->
  db.(users) !! keyRecord.(ApiKey.userId) = Some user ->
  user.(User.role) <> approver ->
  post_approve requestId (Some k) now db
  = (json 403 [("error", JStr "Forbidden");
               ("message", JStr "Only approvers can access this endpoint")], db) /\
  post_reject requestId (Some k) now db
  = (json 403 [("error", JStr "Forbidden");
               ("message", JStr "Only approvers can access this endpoint")], db).
Proof.
  intros Hk Hkey Huser Hrole.
  assert (Hauth : authenticateApprover (Some k) now db
                  = (Denied (forbidden "Only approvers can access this endpoint"), db)).
  { unfold authenticateApprover, authenticate.
    destruct k as [|c k]; [done|]. by rewrite Hkey, Huser, bool_decide_eq_false_2. }
  unfold post_approve, post_reject, route. by rewrite Hauth.
Qed.

Lemma only_approvers_review_witness :
  Fixtures.erin.(User.role) = admin /\
  post_approve 7 (Some "sk_erin") 3000 Fixtures.db2
  = (json 403 [("error", JStr "Forbidden");
               ("message", JStr "Only approvers can access this endpoint")], Fixtures.db2).
Proof.
  split; [reflexivity|].
  apply (only_approvers_review 7 "sk_erin" Fixtures.erin_key Fixtures.erin 3000 Fixtures.db2).
  - discriminate.
  - reflexivity.
  - reflexivity.
  - discriminate.
Defined.

(** X16.  POST /login and [authenticateApiKey] agree on who gets in and
    on what is written: login answers 200 exactly when the middleware
    lets the same key through, its answer then carries the id, name,
    role and balance of [req.user], and both leave the same database. *)
Theorem login_agrees_with_middleware apiKey now db :
  (login apiKey now db).2 = (authenticateApiKey apiKey now db).2 /\
  match (authenticateApiKey apiKey now db).1 with
  | Granted user =>
      (login apiKey now db).1
      = json 200 [("message", JStr "Login successful");
                  ("userId", JId user.(User.id));
                  ("username", JStr user.(User.username));
                  ("role", JStr (role_text user.(User.role)));
                  ("credits", JNum user.(User.credits))]
  | Denied res =>
      (login apiKey now db).1.(status_code) <> 200%nat /\
      (login apiKey now db).2 = db
  end.
Proof.
  unfold login, authenticateApiKey, authenticate.
  repeat case_match; simplify_eq/=; done.
Qed.

(** ** Submitting and listing approval requests *)

Lemma trim_start_head s :
  match trim_start s with
  | c :: _ => JsRegExp.in_class JsRegExp.Space c = false
  | [] => True
  end.
Proof.
  induction s as [|c s IH]; [done|]. cbn [trim_start].
  destruct (JsRegExp.in_class JsRegExp.Space c) eqn:Hc; [exact IH | exact Hc].
Qed.

Lemma trim_start_suffix s : exists spaces, s = spaces ++ trim_start s.
Proof.
  induction s as [|c s [spaces IH]]; [by exists []|]. cbn [trim_start].
  destruct (JsRegExp.in_class JsRegExp.Space c).
  - exists (c :: spaces). cbn. by rewrite <- IH.
  - by exists [].
Qed.

(** The trimmed text neither begins nor ends with white space. *)
Lemma trim_ends text :
  (forall c rest, list_ascii_of_string (trim text) = c :: rest ->
                  JsRegExp.in_class JsRegExp.Space c = false) /\
  (forall c init, list_ascii_of_string (trim text) = init ++ [c] ->
                  JsRegExp.in_class JsRegExp.Space c = false).
Proof.
  unfold trim. rewrite list_ascii_of_string_of_list_ascii.
  set (l1 := trim_start (list_ascii_of_string text)).
  pose proof (trim_start_head (list_ascii_of_string text)) as Hhead1.
  fold l1 in Hhead1.
  pose proof (trim_start_head (rev l1)) as Hhead2.
  destruct (trim_start_suffix (rev l1)) as [spaces Hsuffix].
  set (l2 := trim_start (rev l1)) in *.
  split.
  - intros c rest Heq.
    assert (Hl2 : l2 = rev rest ++ [c]).
    { rewrite <- (rev_involutive l2), Heq. reflexivity. }
    assert (Hl1 : l1 = c :: rev (spaces ++ rev rest)).
    { rewrite <- (rev_involutive l1), Hsuffix, Hl2, app_assoc, rev_app_distr. reflexivity. }
    by rewrite Hl1 in Hhead1.
  - intros c init Heq.
    assert (Hl2 : l2 = c :: rev init).
    { rewrite <- (rev_involutive l2), Heq, rev_app_distr. reflexivity. }
    by rewrite Hl2 in Hhead2.
Qed.

Lemma trim_empty : trim "" = ""%string.
Proof. reflexivity. Qed.

Lemma length_zero_empty (s : string) : String.length s = 0%nat <-> s = ""%string.
Proof. by destruct s. Qed.

(** X17.  POST /approval-request with a string body.  Text that is
    white space only is answered 400 and nothing is stored.  Otherwise,
    when the text holds no U+0000 (PostgreSQL does not store it
    otherwise, and the request is answered 500), the answer is 201 and
    the database gains one request, under the next id: owned by the
    caller, pending, with no vote, not yet reviewed, and holding the
    text without the white space at its ends; no other request and no
    other table changes. *)
Theorem approval_request_submits user text now db :
  text <> ""%string ->
  let result := approval_request user (JStr text) now db in
  (trim text = ""%string ->
   result = (json 400 [("error", JStr "command_text cannot be empty")], db)) /\
  (trim text <> ""%string ->
   storable (trim text) = true ->
   result.1.(status_code) = 201%nat /\
   result.2.(approvalRequests) !! db.(next_id)
   = Some {| ApprovalRequest.id := db.(next_id);
             ApprovalRequest.userId := user.(User.id);
             ApprovalRequest.commandText := trim text;
             ApprovalRequest.status := pending;
             ApprovalRequest.approvalCount := 0;
             ApprovalRequest.createdAt := now;
             ApprovalRequest.reviewedAt := None;
             ApprovalRequest.reviewedBy := None |} /\
   (forall k, k <> db.(next_id) ->
              result.2.(approvalRequests) !! k = db.(approvalRequests) !! k) /\
   result.2.(regexRules) = db.(regexRules) /\
   result.2.(users) = db.(users) /\
   result.2.(auditTrail) = db.(auditTrail) /\
   (forall c rest, list_ascii_of_string (trim text) = c :: rest ->
                   JsRegExp.in_class JsRegExp.Space c = false) /\
   (forall c init, list_ascii_of_string (trim text) = init ++ [c] ->
                   JsRegExp.in_class JsRegExp.Space c = false)).
Proof.
  intros Htext result. subst result. apply String.eqb_neq in Htext.
  unfold approval_request. cbn [truthy]. rewrite Htext. cbn [negb].
  split.
  - intros Hempty. by rewrite Hempty.
  - intros Hfull Hstorable.
    assert (Hlen : Nat.eqb (String.length (trim text)) 0 = false).
    { apply Nat.eqb_neq. by rewrite length_zero_empty. }
    rewrite Hlen. unfold approvalRequest_create. rewrite Hstorable. cbn.
    destruct (trim_ends text) as [Hfirst Hlast].
    split_and!; try done.
    + by rewrite lookup_insert_eq.
    + intros k Hk. by rewrite lookup_insert_ne.
Qed.

Lemma approval_request_submits_witness :
  trim "  make deploy  " = "make deploy"%string /\
  (approval_request Sample.alice (JStr "  make deploy  ") 3000 Sample.db0).1.(status_code)
  = 201%nat /\
  approval_request Sample.alice (JStr "   ") 3000 Sample.db0
  = (json 400 [("error", JStr "command_text cannot be empty")], Sample.db0).
Proof.
  split; [reflexivity|]. split.
  - destruct (approval_request_submits Sample.alice "  make deploy  " 3000 Sample.db0
                ltac:(discriminate)) as [_ H].
    apply H; [discriminate|reflexivity].
  - destruct (approval_request_submits Sample.alice "   " 3000 Sample.db0
                ltac:(discriminate)) as [H _].
    apply H. reflexivity.
Defined.

#[export] Instance request_desc_total : Total request_desc.
Proof. intros a b. unfold request_desc. lia. Qed.

#[export] Instance request_desc_trans : Transitive request_desc.
Proof. intros a b c. unfold request_desc. lia. Qed.

(** X18.  GET /approval-requests lists requests newest first; an
    administrator or an approver is shown every stored request, any
    other user exactly the stored requests that are their own. *)
Theorem approval_requests_visibility user db :
  let rows := approval_requests_rows user db in
  StronglySorted request_desc rows /\
  (user.(User.role) = admin \/ user.(User.role) = approver ->
   forall r, r ∈ rows <-> exists k, db.(approvalRequests) !! k = Some r) /\
  (user.(User.role) <> admin -> user.(User.role) <> approver ->
   forall r, r ∈ rows <->
             (exists k, db.(approvalRequests) !! k = Some r) /\
             r.(ApprovalRequest.userId) = user.(User.id)).
Proof.
  intros rows.
  assert (Hall : forall r, r ∈ (map_to_list db.(approvalRequests)).*2
                           <-> exists k, db.(approvalRequests) !! k = Some r).
  { intros r. rewrite list_elem_of_fmap. split.
    - intros ([k r'] & -> & Hin). exists k. by apply elem_of_map_to_list.
    - intros [k Hk]. exists (k, r). split; [done|]. by apply elem_of_map_to_list. }
  subst rows. unfold approval_requests_rows. split_and!.
  - destruct (_ || _); apply StronglySorted_merge_sort; apply _.
  - intros Hrole r.
    assert (bool_decide (user.(User.role) = admin)
            || bool_decide (user.(User.role) = approver) = true) as ->.
    { destruct Hrole as [-> | ->]; reflexivity. }
    by rewrite merge_sort_Permutation.
  - intros Hna Hnp r.
    rewrite !bool_decide_eq_false_2 by done. cbn [orb].
    rewrite merge_sort_Permutation, list_elem_of_In, filter_In, <- list_elem_of_In.
    by rewrite Hall, Nat.eqb_eq.
Qed.

(** ** From a denied command to an executed one *)

Section Workflow.

(** Any engine: [new RegExp] and [test] are whatever the runtime makes
    of them, and what the statement needs of them is a hypothesis. *)
Context {engine : RegExpEngine}.


End Workflow.


(** ** Seeding *)

Lemma upsert_outcome pattern action exampleMatch now db :
  match regexRule_upsert pattern action exampleMatch now db with
  | Ok (r, db') =>
      r.(RegexRule.pattern) = pattern /\
      ((is_Some (regexRule_findUnique pattern db) /\ db' = db) \/
       (regexRule_findUnique pattern db = None /\
        regexRule_create pattern action exampleMatch now db = Ok (r, db')))
  | Throw _ => False
  end.
Proof.
  unfold regexRule_upsert.
  destruct (regexRule_findUnique pattern db) as [r|] eqn:Hfind.
  - apply findUnique_Some in Hfind as [_ Hp]. split; [done|]. left. eauto.
  - unfold regexRule_create. rewrite Hfind. split; [done|]. by right.
Qed.

Lemma regexRule_create_rules pattern action exampleMatch now db r db' :
  regexRule_create pattern action exampleMatch now db = Ok (r, db') ->
  db'.(regexRules) = db.(regexRules) ++ [r] /\ r.(RegexRule.pattern) = pattern.
Proof.
  unfold regexRule_create. destruct (regexRule_findUnique _ db); [done|].
  by intros [= <- <-].
Qed.

Lemma findUnique_grows pattern db db' added :
  db'.(regexRules) = db.(regexRules) ++ added ->
  is_Some (regexRule_findUnique pattern db) ->
  is_Some (regexRule_findUnique pattern db').
Proof.
  intros Hrules [r Hr]. unfold regexRule_findUnique in *. rewrite Hrules.
  rewrite (find_app_some _ _ _ _ Hr). eauto.
Qed.

Lemma seed_rules_grows rules now db :
  exists added, (seed_rules rules now db).(regexRules) = db.(regexRules) ++ added.
Proof.
  revert db. induction rules as [|rule rules IH]; intros db.
  - exists []. cbn. by rewrite app_nil_r.
  - cbn [seed_rules fold_left].
    pose proof (upsert_outcome rule.1.1 rule.1.2 (Some rule.2) now db) as Hup.
    destruct (regexRule_upsert _ _ _ _ _) as [[r db']|]; [|done].
    destruct (IH db') as [added Hadded]. fold (seed_rules rules now db').
    destruct Hup as [_ [[_ ->]|[_ Hc]]]; [eauto|].
    apply regexRule_create_rules in Hc as [Hc _].
    exists ([r] ++ added). by rewrite Hadded, Hc, app_assoc.
Qed.

Lemma seed_rules_present rules now db rule :
  rule ∈ rules -> is_Some (regexRule_findUnique rule.1.1 (seed_rules rules now db)).
Proof.
  revert db. induction rules as [|first rules IH]; intros db; [by intros ?%elem_of_nil|].
  cbn [seed_rules fold_left].
  pose proof (upsert_outcome first.1.1 first.1.2 (Some first.2) now db) as Hup.
  destruct (regexRule_upsert _ _ _ _ _) as [[r db']|]; [|done].
  fold (seed_rules rules now db').
  intros [->|Hin]%elem_of_cons; [|by apply IH].
  destruct (seed_rules_grows rules now db') as [added Hadded].
  apply (findUnique_grows _ db' _ added Hadded).
  destruct Hup as [Hp [[Hsome ->]|Hc]]; [done|].
  destruct Hc as [Hf Hc]. apply regexRule_create_rules in Hc as [Hc _].
  unfold regexRule_findUnique in *. rewrite Hc, (find_app_none _ _ _ Hf). cbn.
  rewrite Hp, String.eqb_refl. eauto.
Qed.

Lemma seed_rules_nothing_new rules now db :
  (forall rule, rule ∈ rules -> is_Some (regexRule_findUnique rule.1.1 db)) ->
  seed_rules rules now db = db.
Proof.
  induction rules as [|first rules IH]; intros Hall; [done|].
  cbn [seed_rules fold_left]. unfold regexRule_upsert.
  destruct (Hall first (list_elem_of_here _ _)) as [r ->].
  apply IH. intros rule Hin. apply Hall. by apply list_elem_of_further.
Qed.

Lemma seed_rules_wf rules now db : rules_wf db -> rules_wf (seed_rules rules now db).
Proof.
  revert db. induction rules as [|first rules IH]; intros db Hwf; [done|].
  cbn [seed_rules fold_left].
  pose proof (upsert_outcome first.1.1 first.1.2 (Some first.2) now db) as Hup.
  destruct (regexRule_upsert _ _ _ _ _) as [[r db']|]; [|done].
  apply IH. destruct Hup as [_ [[_ ->]|[_ Hc]]]; [done|].
  by apply (regexRule_create_wf _ _ _ _ _ _ _ Hwf) in Hc as [? _].
Qed.

(** X20.  The seed script only appends to the rule set; after it every
    default pattern has a rule; it keeps the rule table well formed;
    and running it again changes nothing, so rules seeded once keep
    their creation time and with it their place in the matching
    order. *)
Theorem seed_is_idempotent now later db :
  (exists added, (seed now db).(regexRules) = db.(regexRules) ++ added) /\
  (forall rule, rule ∈ defaultRules ->
                is_Some (regexRule_findUnique rule.1.1 (seed now db))) /\
  seed later (seed now db) = seed now db /\
  (rules_wf db -> rules_wf (seed now db)).
Proof.
  unfold seed. split_and!.
  - apply seed_rules_grows.
  - intros rule. apply seed_rules_present.
  - apply seed_rules_nothing_new. intros rule. apply seed_rules_present.
  - apply seed_rules_wf.
Qed.

(** ** Setting a balance *)

(** X21.  PUT /users/:userId/credits: a negative number is answered
    400; a request for a user that is not stored does not succeed; in
    both cases nothing changes.  A number from 0 up to the largest
    INTEGER, for a stored user, is answered 200: that user's balance is
    then exactly the number sent, which GET /get-credit-balance reports,
    and every other user is as before. *)
Theorem update_user_credits_sets userId credits db :
  ((credits < 0)%Z ->
   update_user_credits userId (JNum credits) db
   = (json 400 [("error", JStr "credits must be a non-negative number")], db)) /\
  (db.(users) !! userId = None ->
   (update_user_credits userId (JNum credits) db).1.(status_code) <> 200%nat /\
   (update_user_credits userId (JNum credits) db).2 = db) /\
  (forall u,
      (0 <= credits <= int4_max)%Z ->
      db.(users) !! userId = Some u ->
      u.(User.id) = userId ->
      let result := update_user_credits userId (JNum credits) db in
      result.1.(status_code) = 200%nat /\
      (User.credits <$> result.2.(users) !! userId) = Some credits /\
      (forall k, k <> userId -> result.2.(users) !! k = db.(users) !! k) /\
      field "credits" (get_credit_balance u result.2).(body) = Some (JNum credits)).
Proof.
  split_and!.
  - intros Hneg%Z.ltb_lt. unfold update_user_credits. by rewrite Hneg.
  - intros Hnone. unfold update_user_credits, user_update_credits. rewrite Hnone.
    destruct (credits <? 0)%Z; cbn; done.
  - intros u [Hlo Hhi] Hu Hid result. subst result.
    assert (Hneg : (credits <? 0)%Z = false) by (apply Z.ltb_ge; lia).
    assert (Hmax : (int4_max <? credits)%Z = false) by (apply Z.ltb_ge; lia).
    unfold update_user_credits, user_update_credits, get_credit_balance.
    rewrite Hneg, Hu, Hmax. cbn. rewrite Hid.
    split_and!; try done.
    + by rewrite lookup_insert_eq.
    + intros k Hk. by rewrite lookup_insert_ne.
    + by rewrite lookup_insert_eq.
Qed.

(** ** The ledger under every interleaving *)

Section Ledger2.

Context {engine : RegExpEngine}.

Lemma step_ledger now t db k u :
  db.(users) !! k = Some u ->
  exists u',
    (step now t db).2.(users) !! k = Some u' /\
    (u'.(User.credits)
     + 10 * Z.of_nat (length (List.filter (fun a => Nat.eqb a.(AuditTrail.userId) k)
                                          (step now t db).2.(auditTrail))))%Z
    = (u.(User.credits)
       + 10 * Z.of_nat (length (List.filter (fun a => Nat.eqb a.(AuditTrail.userId) k)
                                            db.(auditTrail))))%Z.
Proof.
  intros Hu. destruct t as [apiKey ct|kr user ct|user ct|user text rule|res].
  - unfold step. repeat case_match; simplify_eq/=; eauto.
  - unfold step, apiKey_update_lastUsed. repeat case_match; simplify_eq/=; eauto.
  - unfold step. repeat case_match; simplify_eq/=; eauto.
  - unfold step, command_charge, transaction, user_update_decrement, auditTrail_create.
    destruct (db.(users) !! user.(User.id)) as [row|] eqn:Hrow; [|cbn; eauto].
    destruct (row.(User.credits) - 10 <? int4_min)%Z; [cbn; eauto|].
    destruct (storable text); cbn [negb]; [|cbn; eauto].
    cbn. rewrite List.filter_app, length_app. cbn.
    destruct (decide (k = user.(User.id))) as [->|Hne].
    + rewrite lookup_insert_eq. eexists. split; [reflexivity|].
      rewrite Nat.eqb_refl. cbn. simplify_eq. lia.
    + rewrite lookup_insert_ne by done. exists u. split; [done|].
      assert (Nat.eqb user.(User.id) k = false) as -> by (apply Nat.eqb_neq; congruence).
      cbn. lia.
  - cbn. eauto.
Qed.

(** X22.  Whatever the interleaving of two POST /command requests,
    credits are only ever taken together with their audit row: for
    every stored user, the balance plus 10 for each audit row of that
    user is the same after the run as before it.  (It is the audit
    rows' own before and after figures that can be stale.) *)
Theorem ledger_conserved schedule t1 t2 db k u :
  db.(users) !! k = Some u ->
  exists u',
    (run schedule t1 t2 db).2.(users) !! k = Some u' /\
    (u'.(User.credits)
     + 10 * Z.of_nat (length (List.filter (fun a => Nat.eqb a.(AuditTrail.userId) k)
                                          (run schedule t1 t2 db).2.(auditTrail))))%Z
    = (u.(User.credits)
       + 10 * Z.of_nat (length (List.filter (fun a => Nat.eqb a.(AuditTrail.userId) k)
                                            db.(auditTrail))))%Z.
Proof.
  revert t1 t2 db u. induction schedule as [|turn schedule IH]; intros t1 t2 db u Hu.
  - cbn. eauto.
  - destruct turn as [now|now]; cbn [run].
    + destruct (step_ledger now t1 db k u Hu) as (u1 & Hu1 & Heq1).
      destruct (step now t1 db) as [t1' db1]. cbn [snd] in *.
      destruct (IH t1' t2 db1 u1 Hu1) as (u' & Hu' & Heq). exists u'. split; [done|]. lia.
    + destruct (step_ledger now t2 db k u Hu) as (u1 & Hu1 & Heq1).
      destruct (step now t2 db) as [t2' db1]. cbn [snd] in *.
      destruct (IH t1 t2' db1 u1 Hu1) as (u' & Hu' & Heq). exists u'. split; [done|]. lia.
Qed.

End Ledger2.

Lemma ledger_conserved_witness :
  exists u',
    (run (engine := js_engine) Sample.racing Sample.ls_request Sample.ls_request
         Sample.db0).2.(users) !! 1%nat = Some u' /\
    (u'.(User.credits)
     + 10 * Z.of_nat
              (length (List.filter (fun a => Nat.eqb a.(AuditTrail.userId) 1)
                 (run (engine := js_engine) Sample.racing Sample.ls_request
                      Sample.ls_request Sample.db0).2.(auditTrail))))%Z
    = 15%Z.
Proof.
  apply (ledger_conserved (engine := js_engine) Sample.racing Sample.ls_request
           Sample.ls_request Sample.db0 1%nat Sample.alice eq_refl).
Defined.
